(** * Collaborative 3D model viewer (sample 08.3d-model)

    A shallow embedding of the two React components of the sample:
    - [ModelViewerScene.tsx]: the wrapper around the <babylon-viewer> element;
    - the tab page ([TabContent], [LoadingErrorWrapper], [LiveObjectViewer]).

    Babylon.js objects are mutable and shared by reference, so they live in
    stores addressed by references.  A React callback is a closure: the
    values it captures from the render scope are explicit arguments here
    (named as in the source), while refs and engine objects are read from the
    current [World].  Calls into the Live Share SDK are recorded in a log. *)

From Stdlib Require Import String List Bool Arith ZArith.
From Stdlib Require Import Floats.SpecFloat.
Import ListNotations.
Local Open Scope string_scope.
Local Open Scope list_scope.

(** ** JavaScript values *)

(** JavaScript numbers are IEEE-754 doubles.  The program only copies them. *)
Definition number : Type := spec_float.

(** [!!s] for [s : string | null]: [null] and the empty string are falsy. *)
Definition truthy_string (s : option string) : bool :=
  match s with
  | Some s => negb (String.eqb s "")
  | None => false
  end.

(** [!!o] for an object reference or [null]/[undefined]. *)
Definition truthy {A : Type} (o : option A) : bool :=
  match o with
  | Some _ => true
  | None => false
  end.

(** ** Babylon.js objects *)

Module Vector3.
Record t : Type := New { x : number; y : number; z : number }.
End Vector3.

(** [Color3.FromHexString] is the engine's parser; it is left uninterpreted. *)
Inductive Color3 : Type :=
| Color3_rgb (r g b : number)
| FromHexString (hex : string).

Inductive Material : Type :=
| PBRMaterial (name : string) (albedoColor : Color3)
| StandardMaterial (name : string).

Definition Material_name (m : Material) : string :=
  match m with
  | PBRMaterial name _ => name
  | StandardMaterial name => name
  end.

Definition instanceof_PBRMaterial (m : Material) : bool :=
  match m with
  | PBRMaterial _ _ => true
  | StandardMaterial _ => false
  end.

(** [material.albedoColor = color], for a material known to be a PBRMaterial. *)
Definition set_albedoColor (color : Color3) (m : Material) : Material :=
  match m with
  | PBRMaterial name _ => PBRMaterial name color
  | StandardMaterial name => StandardMaterial name
  end.

Definition SceneRef : Type := nat.
Definition CameraRef : Type := nat.
Definition MaterialRef : Type := nat.

Record AbstractMesh : Type := { material : option MaterialRef }.

Record PickingInfo : Type := { hit : bool; pickedMesh : option AbstractMesh }.

Record IPointerEvent : Type := { clientX : number; clientY : number }.

(** Closures the page hands to the engine, with the values they capture. *)

(** [handlePointerDown], deps [[selectedMaterialName]]. *)
Inductive PointerCallback : Type :=
| handlePointerDown_closure (selectedMaterialName : option string).

(** The function given to [onBeforeRenderObservable.addOnce] (lines 265-272). *)
Inductive BeforeRenderCallback : Type :=
| applyRemoteCamera_closure (camera : CameraRef) (remoteCameraPos : Vector3.t).

(** [onCameraViewMatrixChanged]; through [sendCameraPos] it captures [camera]. *)
Inductive ViewMatrixCallback : Type :=
| onCameraViewMatrixChanged_closure (camera : option CameraRef).

Record Observer : Type := { observerId : nat; callback : ViewMatrixCallback }.

Record Scene : Type := {
  materials : list MaterialRef;
  activeCamera : option CameraRef;
  pick : number -> number -> option PickingInfo;
  onPointerDown : option PointerCallback;
  onBeforeRenderObservable : list BeforeRenderCallback
}.

Record ArcRotateCamera : Type := {
  position : Vector3.t;
  useAutoRotationBehavior : bool;
  onViewMatrixChangedObservable : list Observer;
  nextObserverId : nat
}.

(** ** Live Share SDK *)

Module ICustomFollowData.
Record Position : Type := { x : number; y : number; z : number }.
Record t : Type := { cameraPosition : option Position }.
End ICustomFollowData.

(** Modelled from the spec: the [FollowModeType] enumeration of the
    collaboration SDK is declared outside the sources; these are the seven
    follow-mode types the page refers to. *)
Inductive FollowModeType : Type :=
| local
| activeFollowers
| activePresenter
| followPresenter
| suspendFollowPresenter
| followUser
| suspendFollowUser.

Definition FollowModeType_eqb (a b : FollowModeType) : bool :=
  match a, b with
  | local, local
  | activeFollowers, activeFollowers
  | activePresenter, activePresenter
  | followPresenter, followPresenter
  | suspendFollowPresenter, suspendFollowPresenter
  | followUser, followUser
  | suspendFollowUser, suspendFollowUser => true
  | _, _ => false
  end.

(** Modelled from the spec: the follow-mode state object of the
    collaboration SDK (presenter/follower roles, per-user custom data,
    suspension state) is declared outside the sources; these are the fields
    of it that the page reads. *)
Record IFollowModeState : Type := {
  type : FollowModeType;
  value : ICustomFollowData.t;
  followingUserId : string;
  isLocalValue : bool
}.

(** Modelled from the spec: the hooks of the collaboration SDK are outside
    the sources.  A call to one of the functions they hand to the page is
    recorded with its arguments, not interpreted. *)
Inductive LiveShareCall : Type :=
| setMaterialColor (key value : string)
| updateUserCameraState (data : ICustomFollowData.t)
| startPresenting
| stopPresenting
| followUser_call (userId : string)
| stopFollowing
| beginSuspension
| endSuspension.

(** ** The state of the page *)

Record World : Type := {
  (* engine objects *)
  scenes : SceneRef -> Scene;
  cameras : CameraRef -> ArcRotateCamera;
  materialObjects : MaterialRef -> Material;
  (* LiveObjectViewer: refs and state *)
  sceneRef : option SceneRef;
  camera : option CameraRef;
  isApplyingRemoteCameraUpdate : bool;
  selectedMaterialName : option string;
  hasInitiallyPresentedRef : bool;
  (* SDK calls made so far, oldest first *)
  liveShare : list LiveShareCall
}.

Definition update {A : Type} (store : nat -> A) (r : nat) (a : A) : nat -> A :=
  fun r' => if Nat.eqb r' r then a else store r'.

(** Field updates of [World]. *)

Definition set_scenes (v : SceneRef -> Scene) (w : World) : World :=
  {| scenes := v;
     cameras := cameras w;
     materialObjects := materialObjects w;
     sceneRef := sceneRef w;
     camera := camera w;
     isApplyingRemoteCameraUpdate := isApplyingRemoteCameraUpdate w;
     selectedMaterialName := selectedMaterialName w;
     hasInitiallyPresentedRef := hasInitiallyPresentedRef w;
     liveShare := liveShare w |}.

Definition set_cameras (v : CameraRef -> ArcRotateCamera) (w : World) : World :=
  {| scenes := scenes w;
     cameras := v;
     materialObjects := materialObjects w;
     sceneRef := sceneRef w;
     camera := camera w;
     isApplyingRemoteCameraUpdate := isApplyingRemoteCameraUpdate w;
     selectedMaterialName := selectedMaterialName w;
     hasInitiallyPresentedRef := hasInitiallyPresentedRef w;
     liveShare := liveShare w |}.

Definition set_materialObjects (v : MaterialRef -> Material) (w : World) : World :=
  {| scenes := scenes w;
     cameras := cameras w;
     materialObjects := v;
     sceneRef := sceneRef w;
     camera := camera w;
     isApplyingRemoteCameraUpdate := isApplyingRemoteCameraUpdate w;
     selectedMaterialName := selectedMaterialName w;
     hasInitiallyPresentedRef := hasInitiallyPresentedRef w;
     liveShare := liveShare w |}.

Definition set_sceneRef (v : option SceneRef) (w : World) : World :=
  {| scenes := scenes w;
     cameras := cameras w;
     materialObjects := materialObjects w;
     sceneRef := v;
     camera := camera w;
     isApplyingRemoteCameraUpdate := isApplyingRemoteCameraUpdate w;
     selectedMaterialName := selectedMaterialName w;
     hasInitiallyPresentedRef := hasInitiallyPresentedRef w;
     liveShare := liveShare w |}.

Definition set_camera (v : option CameraRef) (w : World) : World :=
  {| scenes := scenes w;
     cameras := cameras w;
     materialObjects := materialObjects w;
     sceneRef := sceneRef w;
     camera := v;
     isApplyingRemoteCameraUpdate := isApplyingRemoteCameraUpdate w;
     selectedMaterialName := selectedMaterialName w;
     hasInitiallyPresentedRef := hasInitiallyPresentedRef w;
     liveShare := liveShare w |}.

Definition set_isApplyingRemoteCameraUpdate (v : bool) (w : World) : World :=
  {| scenes := scenes w;
     cameras := cameras w;
     materialObjects := materialObjects w;
     sceneRef := sceneRef w;
     camera := camera w;
     isApplyingRemoteCameraUpdate := v;
     selectedMaterialName := selectedMaterialName w;
     hasInitiallyPresentedRef := hasInitiallyPresentedRef w;
     liveShare := liveShare w |}.

Definition set_selectedMaterialName (v : option string) (w : World) : World :=
  {| scenes := scenes w;
     cameras := cameras w;
     materialObjects := materialObjects w;
     sceneRef := sceneRef w;
     camera := camera w;
     isApplyingRemoteCameraUpdate := isApplyingRemoteCameraUpdate w;
     selectedMaterialName := v;
     hasInitiallyPresentedRef := hasInitiallyPresentedRef w;
     liveShare := liveShare w |}.

Definition set_hasInitiallyPresentedRef (v : bool) (w : World) : World :=
  {| scenes := scenes w;
     cameras := cameras w;
     materialObjects := materialObjects w;
     sceneRef := sceneRef w;
     camera := camera w;
     isApplyingRemoteCameraUpdate := isApplyingRemoteCameraUpdate w;
     selectedMaterialName := selectedMaterialName w;
     hasInitiallyPresentedRef := v;
     liveShare := liveShare w |}.

Definition set_liveShare (v : list LiveShareCall) (w : World) : World :=
  {| scenes := scenes w;
     cameras := cameras w;
     materialObjects := materialObjects w;
     sceneRef := sceneRef w;
     camera := camera w;
     isApplyingRemoteCameraUpdate := isApplyingRemoteCameraUpdate w;
     selectedMaterialName := selectedMaterialName w;
     hasInitiallyPresentedRef := hasInitiallyPresentedRef w;
     liveShare := v |}.

(** ** Engine operations used by the page *)

Definition Scene_set_onPointerDown (cb : option PointerCallback) (s : Scene) : Scene :=
  {| materials := materials s;
     activeCamera := activeCamera s;
     pick := pick s;
     onPointerDown := cb;
     onBeforeRenderObservable := onBeforeRenderObservable s |}.

Definition Scene_set_onBeforeRenderObservable (cbs : list BeforeRenderCallback) (s : Scene) : Scene :=
  {| materials := materials s;
     activeCamera := activeCamera s;
     pick := pick s;
     onPointerDown := onPointerDown s;
     onBeforeRenderObservable := cbs |}.

Definition Camera_set_position (p : Vector3.t) (c : ArcRotateCamera) : ArcRotateCamera :=
  {| position := p;
     useAutoRotationBehavior := useAutoRotationBehavior c;
     onViewMatrixChangedObservable := onViewMatrixChangedObservable c;
     nextObserverId := nextObserverId c |}.

Definition Camera_set_useAutoRotationBehavior (b : bool) (c : ArcRotateCamera) : ArcRotateCamera :=
  {| position := position c;
     useAutoRotationBehavior := b;
     onViewMatrixChangedObservable := onViewMatrixChangedObservable c;
     nextObserverId := nextObserverId c |}.

(** [observable.add(cb)]: the new observer gets a fresh identity. *)
Definition Observable_add (cb : ViewMatrixCallback) (c : ArcRotateCamera) : ArcRotateCamera :=
  {| position := position c;
     useAutoRotationBehavior := useAutoRotationBehavior c;
     onViewMatrixChangedObservable :=
       onViewMatrixChangedObservable c
         ++ [{| observerId := nextObserverId c; callback := cb |}];
     nextObserverId := S (nextObserverId c) |}.

(** [observer.remove()]. *)
Definition Observer_remove (id : nat) (c : ArcRotateCamera) : ArcRotateCamera :=
  {| position := position c;
     useAutoRotationBehavior := useAutoRotationBehavior c;
     onViewMatrixChangedObservable :=
       filter (fun o => negb (Nat.eqb (observerId o) id))
              (onViewMatrixChangedObservable c);
     nextObserverId := nextObserverId c |}.

(** [scene.getMaterialByName(name)]: the first material of the scene that
    carries the name, or [null]. *)
Fixpoint findMaterialByName (objects : MaterialRef -> Material) (name : string)
  (ms : list MaterialRef) : option MaterialRef :=
  match ms with
  | [] => None
  | m :: rest =>
      if String.eqb (Material_name (objects m)) name then Some m
      else findMaterialByName objects name rest
  end.

Definition getMaterialByName (scene : SceneRef) (name : string) (w : World)
  : option MaterialRef :=
  findMaterialByName (materialObjects w) name (materials (scenes w scene)).

(** A call into the SDK is appended to the log. *)
Definition call (c : LiveShareCall) (w : World) : World :=
  set_liveShare (liveShare w ++ [c]) w.

(** ** LiveObjectViewer: callbacks *)

(** The two React state setters. *)
Definition setSelectedMaterialName (v : option string) (w : World) : World :=
  set_selectedMaterialName v w.

Definition setCamera (v : option CameraRef) (w : World) : World :=
  set_camera v w.

(** [if (material && material instanceof PBRMaterial) material.albedoColor =
    Color3.FromHexString(value)], shared by [onChangeColor] and
    [applyRemoteColors]. *)
Definition recolor (material : option MaterialRef) (value : string) (w : World) : World :=
  match material with
  | Some m =>
      if instanceof_PBRMaterial (materialObjects w m) then
        let color := FromHexString value in
        set_materialObjects
          (update (materialObjects w) m (set_albedoColor color (materialObjects w m))) w
      else w
  | None => w
  end.

(** Lines 157-174.  [throws] tells whether the SDK's [setEntry] raises; the
    [catch] only writes to the console, which is not part of the state. *)
Definition onChangeColor (selectedMaterialName : option string) (throws : bool)
  (value : string) (w : World) : World :=
  if negb (truthy_string selectedMaterialName) then w else
  match selectedMaterialName, sceneRef w with
  | Some name, Some scene =>
      let w := call (setMaterialColor name value) w in
      if throws then w
      else recolor (getMaterialByName scene name w) value w
  | _, _ => w
  end.

(** [pickResult && pickResult.hit && pickResult.pickedMesh] (line 188). *)
Definition hitMesh (pickResult : option PickingInfo) : option AbstractMesh :=
  match pickResult with
  | Some info => if hit info then pickedMesh info else None
  | None => None
  end.

(** Lines 179-199. *)
Definition handlePointerDown (selectedMaterialName : option string)
  (evt : IPointerEvent) (w : World) : World :=
  match sceneRef w with
  | None => w
  | Some scene =>
      let pickResult := pick (scenes w scene) (clientX evt) (clientY evt) in
      match hitMesh pickResult with
      | Some mesh =>
          match material mesh with
          | None => w
          | Some m =>
              setSelectedMaterialName (Some (Material_name (materialObjects w m))) w
          end
      | None =>
          if negb (truthy_string selectedMaterialName) then w
          else setSelectedMaterialName None w
      end
  end.

(** The body of the [forEach] of lines 219-226, for one entry. *)
Definition applyRemoteColor (w : World) (entry : string * string) : World :=
  let (key, value) := entry in
  match sceneRef w with
  | None => w
  | Some scene => recolor (getMaterialByName scene key w) value w
  end.

(** Lines 218-227.  The synchronized map is iterated in insertion order. *)
Definition applyRemoteColors (colorsMap : list (string * string)) (w : World) : World :=
  fold_left applyRemoteColor colorsMap w.

(** Lines 239-249. *)
Definition sendCameraPos (camera : option CameraRef) (w : World) : World :=
  match camera with
  | None => w
  | Some c =>
      let cameraPosition := position (cameras w c) in
      call (updateUserCameraState
              {| ICustomFollowData.cameraPosition :=
                   Some {| ICustomFollowData.x := Vector3.x cameraPosition;
                           ICustomFollowData.y := Vector3.y cameraPosition;
                           ICustomFollowData.z := Vector3.z cameraPosition |} |}) w
  end.

(** [scene.onBeforeRenderObservable.addOnce(cb)]. *)
Definition addOnce (scene : SceneRef) (cb : BeforeRenderCallback) (w : World) : World :=
  let s := scenes w scene in
  set_scenes
    (update (scenes w) scene
       (Scene_set_onBeforeRenderObservable (onBeforeRenderObservable s ++ [cb]) s)) w.

(** Lines 254-274; deps [[remoteCameraState]], so [camera] is the value
    captured when the callback was created. *)
Definition snapCameraIfFollowingUser (remoteCameraState : option IFollowModeState)
  (camera : option CameraRef) (w : World) : World :=
  match remoteCameraState with
  | None => w
  | Some state =>
      match ICustomFollowData.cameraPosition (value state) with
      | None => w
      | Some p =>
          if isLocalValue state then w else
          match camera with
          | None => w
          | Some c =>
              let remoteCameraPos :=
                Vector3.New (ICustomFollowData.x p) (ICustomFollowData.y p)
                            (ICustomFollowData.z p) in
              match sceneRef w with
              | Some scene => addOnce scene (applyRemoteCamera_closure c remoteCameraPos) w
              | None => w
              end
          end
      end
  end.

(** Lines 286-294. *)
Definition onCameraViewMatrixChanged (camera : option CameraRef) (w : World) : World :=
  if negb (isApplyingRemoteCameraUpdate w) then
    call beginSuspension (sendCameraPos camera w)
  else w.

(** ** The engine running the page's closures *)

Definition runViewMatrixCallback (w : World) (o : Observer) : World :=
  match callback o with
  | onCameraViewMatrixChanged_closure camera => onCameraViewMatrixChanged camera w
  end.

(** [camera.onViewMatrixChangedObservable.notifyObservers()]. *)
Definition notifyViewMatrixChanged (c : CameraRef) (w : World) : World :=
  fold_left runViewMatrixCallback (onViewMatrixChangedObservable (cameras w c)) w.

Fixpoint notifyTimes (n : nat) (c : CameraRef) (w : World) : World :=
  match n with
  | O => w
  | S n => notifyTimes n c (notifyViewMatrixChanged c w)
  end.

(** How often the engine reports a changed view matrix inside each of the
    three camera calls of the before-render callback.  It is the engine's
    business; the page has to cope with every answer. *)
Record EngineNotifications : Type := {
  duringSetPosition : nat;
  duringUpdate : nat;
  duringUpdateCache : nat
}.

(** [camera.setPosition(p)], as far as the page is concerned: the vector
    handed over is recorded as the camera's position, and the view-matrix
    observers are notified [fires] times.  The engine's own arithmetic is not
    modelled: it turns the vector into angles and a radius, recomputes the
    position from them when it next builds the view matrix, and that is also
    when it really notifies.  So the position recorded here is the one that
    was requested, not the one the engine reports afterwards, and nothing
    below is concluded from it: the properties stated with this function are
    about the calls to the SDK and about the page's own refs and state. *)
Definition Camera_setPosition (fires : nat) (c : CameraRef) (p : Vector3.t) (w : World) : World :=
  notifyTimes fires c
    (set_cameras (update (cameras w) c (Camera_set_position p (cameras w c))) w).

(** [camera.update()] and [camera.updateCache()]: only the notifications
    they may cause are modelled, not the engine's recomputation of the
    camera. *)
Definition Camera_update (fires : nat) (c : CameraRef) (w : World) : World :=
  notifyTimes fires c w.

Definition Camera_updateCache (fires : nat) (c : CameraRef) (w : World) : World :=
  notifyTimes fires c w.

(** Lines 265-272: the function queued by [snapCameraIfFollowingUser]. *)
Definition applyRemoteCamera (camera : CameraRef) (remoteCameraPos : Vector3.t)
  (fires : EngineNotifications) (w : World) : World :=
  let w := set_isApplyingRemoteCameraUpdate true w in
  let w := Camera_setPosition (duringSetPosition fires) camera remoteCameraPos w in
  let w := Camera_update (duringUpdate fires) camera w in
  let w := Camera_updateCache (duringUpdateCache fires) camera w in
  set_isApplyingRemoteCameraUpdate false w.

Definition runBeforeRenderCallback (cb : BeforeRenderCallback)
  (fires : EngineNotifications) (w : World) : World :=
  match cb with
  | applyRemoteCamera_closure camera remoteCameraPos =>
      applyRemoteCamera camera remoteCameraPos fires w
  end.

(** The engine takes the oldest once-only observer off the scene's
    before-render observable and runs it. *)
Definition beforeRender (scene : SceneRef) (fires : EngineNotifications) (w : World) : World :=
  let s := scenes w scene in
  match onBeforeRenderObservable s with
  | [] => w
  | cb :: rest =>
      runBeforeRenderCallback cb fires
        (set_scenes (update (scenes w) scene (Scene_set_onBeforeRenderObservable rest s)) w)
  end.

(** The engine delivers a pointer-down event to [scene.onPointerDown]. *)
Definition pointerDown (scene : SceneRef) (evt : IPointerEvent) (w : World) : World :=
  match onPointerDown (scenes w scene) with
  | Some (handlePointerDown_closure selectedMaterialName) =>
      handlePointerDown selectedMaterialName evt w
  | None => w
  end.

(** ** LiveObjectViewer: effects *)

Definition assign_onPointerDown (scene : SceneRef) (cb : option PointerCallback)
  (w : World) : World :=
  set_scenes (update (scenes w) scene (Scene_set_onPointerDown cb (scenes w scene))) w.

(** Lines 204-213: the effect and the cleanup it returns. *)
Definition pointerDownEffect (selectedMaterialName : option string) (w : World) : World :=
  match sceneRef w with
  | Some scene =>
      assign_onPointerDown scene (Some (handlePointerDown_closure selectedMaterialName)) w
  | None => w
  end.

Definition pointerDownEffect_cleanup (w : World) : World :=
  match sceneRef w with
  | Some scene => assign_onPointerDown scene None w
  | None => w
  end.

(** Lines 299-309.  The effect returns the observer its cleanup closes over
    (with the camera it was added to), or nothing when it returned early. *)
Definition viewMatrixEffect (camera : option CameraRef) (w : World)
  : World * option (CameraRef * nat) :=
  match camera with
  | None => (w, None)
  | Some c =>
      let observer := nextObserverId (cameras w c) in
      (set_cameras
         (update (cameras w) c
            (Observable_add (onCameraViewMatrixChanged_closure camera) (cameras w c))) w,
       Some (c, observer))
  end.

Definition viewMatrixEffect_cleanup (observer : option (CameraRef * nat)) (w : World) : World :=
  match observer with
  | Some (c, id) => set_cameras (update (cameras w) c (Observer_remove id (cameras w c))) w
  | None => w
  end.

(** Lines 316-333.  [succeeded] is [liveFollowMode?.initializeState ===
    succeeded]; [isShareInitiator] is [sharingStatus?.isShareInitiator]. *)
Definition initialPresentEffect (succeeded : bool) (isShareInitiator : bool)
  (remoteCameraState : option IFollowModeState) (w : World) : World :=
  if negb succeeded then w else
  if negb isShareInitiator then w else
  match remoteCameraState with
  | None => w
  | Some state =>
      if negb (FollowModeType_eqb (type state) local) then w else
      if hasInitiallyPresentedRef w then w else
      call startPresenting (set_hasInitiallyPresentedRef true w)
  end.

(** Lines 405-414: the [onReadyObservable] prop.  ModelViewerScene keeps the
    function of the first render, so every captured value is an argument:
    [selectedMaterialName] (of [handlePointerDown]), [colorsMap] (of
    [applyRemoteColors]), [remoteCameraState] and [capturedCamera] (of
    [snapCameraIfFollowingUser]). *)
Definition onReadyObservable (selectedMaterialName : option string)
  (colorsMap : list (string * string)) (remoteCameraState : option IFollowModeState)
  (capturedCamera : option CameraRef)
  (scene : SceneRef) (camera : option CameraRef) (w : World) : World :=
  let w := set_sceneRef (Some scene) w in
  let w := assign_onPointerDown scene (Some (handlePointerDown_closure selectedMaterialName)) w in
  let w := applyRemoteColors colorsMap w in
  let w := snapCameraIfFollowingUser remoteCameraState capturedCamera w in
  setCamera camera w.

(** ** Rendering *)

(** What a component returns.  Props that only style an element are left
    out; [onClick] is the SDK function the button is wired to; [onChange] of
    the colour picker is [onChangeColor] with its captured selection. *)
Local Unset Elimination Schemes.

Inductive Element : Type :=
| Fragment (children : list Element)
| Text (text : string)
| Spinner
| FlexColumn (children : list Element)
| TopHeaderBar (right : list Element) (children : list Element)
| Button (appearance : string) (onClick : LiveShareCall) (label : string)
| LiveAvatars (allUsers : list string) (remoteCameraState : IFollowModeState)
| DecorativeOutline (borderColor : string)
| HexColorPicker (color : option string) (onChange : option string)
| LiveCanvasOverlay (followingUserId : string) (zPosition : number)
| FollowModeInfoBar (remoteCameraState : IFollowModeState) (children : list Element)
| FollowModeInfoText
| FollowModeSmallButton (onClick : LiveShareCall) (label : string)
| ErrorBoundary (children : list Element)
| Suspense (children : list Element)
| babylon_viewer (src : string) (env : string).

Local Set Elimination Schemes.

(** [{cond && <X/>}]. *)
Definition when (cond : bool) (e : Element) : list Element :=
  if cond then [e] else [].

(** Every element of a tree, parents first. *)
Fixpoint nodes (e : Element) : list Element :=
  e ::
  match e with
  | Fragment children => flat_map nodes children
  | FlexColumn children => flat_map nodes children
  | TopHeaderBar actions children => flat_map nodes actions ++ flat_map nodes children
  | FollowModeInfoBar _ children => flat_map nodes children
  | ErrorBoundary children => flat_map nodes children
  | Suspense children => flat_map nodes children
  | _ => []
  end.

Record Error : Type := { message : string }.

(** Lines 69-84. *)
Definition LoadingErrorWrapper (joined : bool) (joinError : option Error)
  (children : list Element) : Element :=
  match joinError with
  | Some e => Text (message e)
  | None =>
      if negb joined then FlexColumn [Spinner]
      else Fragment children
  end.

(** ModelViewerScene.tsx, lines 71-82. *)
Definition ModelViewerScene (modelFileName : string) : Element :=
  ErrorBoundary
    [Suspense
       [babylon_viewer modelFileName
          "https://assets.babylonjs.com/environments/ulmerMuenster.env"]].

(** [colorsMap.get(key)]. *)
Fixpoint Map_get (key : string) (m : list (string * string)) : option string :=
  match m with
  | [] => None
  | (k, v) :: rest => if String.eqb k key then Some v else Map_get key rest
  end.

(** Lines 336-343. *)
Definition followModeActive (remoteCameraState : option IFollowModeState) : bool :=
  match remoteCameraState with
  | Some state =>
      existsb (FollowModeType_eqb (type state))
        [followPresenter; followUser; activePresenter; activeFollowers]
  | None => false
  end.

Definition tokens_colorPaletteRedBackground3 : string := "colorPaletteRedBackground3".
Definition tokens_colorPaletteBlueBorderActive : string := "colorPaletteBlueBorderActive".

(** The handle of the SDK's SharedMap object. *)
Definition SharedMap : Type := nat.

(** Lines 345-485.  The hooks' results are arguments; the selection is read
    from the state. *)
Definition LiveObjectViewer (colorsMap : list (string * string))
  (sharedColorsMap : option SharedMap) (allUsers : list string)
  (remoteCameraState : option IFollowModeState) (w : World) : Element :=
  let selectedMaterialName := selectedMaterialName w in
  let typeIs t :=
    match remoteCameraState with
    | Some state => FollowModeType_eqb (type state) t
    | None => false
    end in
  Fragment
    ((match remoteCameraState with
      | Some state =>
          [TopHeaderBar
             (when (typeIs local || typeIs activeFollowers)
                (Button "primary" startPresenting "Spotlight me")
              ++ when (typeIs activePresenter)
                (Button "primary" stopPresenting "Stop spotlight")
              ++ when (typeIs suspendFollowUser || typeIs followUser)
                (Button "primary" stopFollowing "Stop following")
              ++ when (typeIs followPresenter || typeIs suspendFollowPresenter)
                (Button "secondary" startPresenting "Take control"))
             [LiveAvatars allUsers state]]
      | None => []
      end)
     ++ [FlexColumn
           [ModelViewerScene
              "https://raw.githubusercontent.com/BabylonJS/Assets/master/splats/gs_Skull.splat"]]
     ++ (match remoteCameraState with
         | Some state =>
             when (followModeActive remoteCameraState)
               (DecorativeOutline
                  (if typeIs activePresenter || typeIs activeFollowers
                   then tokens_colorPaletteRedBackground3
                   else tokens_colorPaletteBlueBorderActive))
         | None => []
         end)
     ++ when (truthy sharedColorsMap && truthy_string selectedMaterialName)
          (HexColorPicker
             (match selectedMaterialName with
              | Some name =>
                  if truthy_string selectedMaterialName then Map_get name colorsMap else None
              | None => None
              end)
             selectedMaterialName)
     ++ (match remoteCameraState with
         | Some state =>
             when (followModeActive remoteCameraState)
               (LiveCanvasOverlay (followingUserId state)
                  (match ICustomFollowData.cameraPosition (value state) with
                   | Some p => ICustomFollowData.z p
                   | None => S754_zero false
                   end))
         | None => []
         end)
     ++ (match remoteCameraState with
         | Some state =>
             when (negb (typeIs local))
               (FollowModeInfoBar state
                  ([FollowModeInfoText]
                   ++ when (typeIs activePresenter) (FollowModeSmallButton stopPresenting "STOP")
                   ++ when (typeIs followUser) (FollowModeSmallButton stopFollowing "STOP")
                   ++ when (typeIs suspendFollowPresenter)
                        (FollowModeSmallButton endSuspension "FOLLOW")
                   ++ when (typeIs suspendFollowUser)
                        (FollowModeSmallButton endSuspension "RESUME")))
         | None => []
         end)).

(** Queries on a rendered tree. *)

Definition isHexColorPicker (e : Element) : bool :=
  match e with
  | HexColorPicker _ _ => true
  | _ => false
  end.

Definition rendersHexColorPicker (tree : Element) : bool :=
  existsb isHexColorPicker (nodes tree).

(** The contents of the [right] slot of every top header bar in the tree. *)
Definition topHeaderBarActions (tree : Element) : list (list Element) :=
  flat_map (fun e => match e with TopHeaderBar actions _ => [actions] | _ => [] end)
           (nodes tree).

(** The [(src, env)] attributes of every <babylon-viewer> in the tree. *)
Definition viewerSources (tree : Element) : list (string * string) :=
  flat_map (fun e => match e with babylon_viewer src env => [(src, env)] | _ => [] end)
           (nodes tree).

(** ** ModelViewerScene.tsx: the effect on the <babylon-viewer> element *)

(** The two functions the effect registers (lines 49-53 and 59-63). *)
Inductive ViewerListener : Type :=
| viewerready_listener
| modelchange_listener.

(** The signal of an [AbortController]; each controller has its own. *)
Definition AbortSignal : Type := nat.

(** A registered listener with the options it was added with. *)
Record EventListener : Type := {
  eventType : string;
  listener : ViewerListener;
  once : bool;
  signal : option AbortSignal
}.

Record HTML3DElement : Type := { listeners : list EventListener }.

(** [event.detail] of the viewer's events. *)
Record ViewerDetails : Type := { scene : SceneRef }.

(** The page together with the mounted ModelViewerScene: [viewerRef.current]
    and the variable [camera] of the effect (line 46).  One variable is kept,
    that of the latest run of the effect; a listener left behind by an
    earlier run would in the source keep the variable of its own run, so
    nothing is stated here about a model-change event after a second run. *)
Record Page : Type := {
  world : World;
  viewerRef : option HTML3DElement;
  effectCamera : option CameraRef
}.

Definition addEventListener (type : string) (l : ViewerListener) (once : bool)
  (signal : option AbortSignal) (el : HTML3DElement) : HTML3DElement :=
  {| listeners :=
       listeners el
         ++ [{| eventType := type; listener := l; once := once; signal := signal |}] |}.

Definition hasSignal (s : AbortSignal) (l : EventListener) : bool :=
  match signal l with
  | Some s' => Nat.eqb s' s
  | None => false
  end.

(** [abortController.abort()]: the listeners added with its signal go away. *)
Definition abort (s : AbortSignal) (el : HTML3DElement) : HTML3DElement :=
  {| listeners := filter (fun l => negb (hasSignal s l)) (listeners el) |}.

Section ModelViewerScene.

(** The [onReadyObservable] prop. *)
Variable onReadyObservable : SceneRef -> option CameraRef -> World -> World.

Definition runViewerListener (detail : ViewerDetails) (p : Page) (l : EventListener) : Page :=
  match listener l with
  | viewerready_listener =>
      let scene := scene detail in
      let camera := activeCamera (scenes (world p) scene) in
      {| world := onReadyObservable scene camera (world p);
         viewerRef := viewerRef p;
         effectCamera := camera |}
  | modelchange_listener =>
      match effectCamera p with
      | Some camera =>
          let w := world p in
          {| world :=
               set_cameras
                 (update (cameras w) camera
                    (Camera_set_useAutoRotationBehavior false (cameras w camera))) w;
             viewerRef := viewerRef p;
             effectCamera := effectCamera p |}
      | None => p
      end
  end.

(** The element fires an event: its listeners for the type run in the order
    they were added, and those added with [once] are taken off. *)
Definition dispatchEvent (type : string) (detail : ViewerDetails) (p : Page) : Page :=
  match viewerRef p with
  | None => p
  | Some el =>
      let targets := filter (fun l => String.eqb (eventType l) type) (listeners el) in
      let kept :=
        filter (fun l => negb (String.eqb (eventType l) type && once l)) (listeners el) in
      fold_left (runViewerListener detail) targets
        {| world := world p;
           viewerRef := Some {| listeners := kept |};
           effectCamera := effectCamera p |}
  end.

(** Lines 42-65; [abortController] is the signal of the controller made on
    line 44. *)
Definition ModelViewerScene_effect (abortController : AbortSignal) (p : Page) : Page :=
  match viewerRef p with
  | Some viewerElement =>
      let el :=
        addEventListener "viewerready" viewerready_listener true (Some abortController)
          viewerElement in
      let el := addEventListener "modelchange" modelchange_listener false None el in
      {| world := world p; viewerRef := Some el; effectCamera := None |}
  | None => p
  end.

(** Lines 66-68. *)
Definition ModelViewerScene_cleanup (abortController : AbortSignal) (p : Page) : Page :=
  match viewerRef p with
  | Some el =>
      {| world := world p;
         viewerRef := Some (abort abortController el);
         effectCamera := effectCamera p |}
  | None => p
  end.

End ModelViewerScene.

(** ** The page as a transition system *)

(** What can happen to a mounted LiveObjectViewer.  Values captured by a
    closure are left arbitrary: a stale closure is an allowed behaviour. *)
Inductive step : World -> World -> Prop :=
| step_ready : forall sel colors remote cam0 scene cam w,
    step w (onReadyObservable sel colors remote cam0 scene cam w)
| step_pointerDown : forall scene evt w,
    step w (pointerDown scene evt w)
| step_changeColor : forall sel throws value w,
    step w (onChangeColor sel throws value w)
| step_pointerDownEffect : forall sel w,
    step w (pointerDownEffect sel w)
| step_pointerDownCleanup : forall w,
    step w (pointerDownEffect_cleanup w)
| step_applyRemoteColors : forall colors w,
    step w (applyRemoteColors colors w)
| step_snapCamera : forall remote cam w,
    step w (snapCameraIfFollowingUser remote cam w)
| step_viewMatrixEffect : forall cam w,
    step w (fst (viewMatrixEffect cam w))
| step_viewMatrixCleanup : forall observer w,
    step w (viewMatrixEffect_cleanup observer w)
| step_initialPresent : forall succeeded initiator remote w,
    step w (initialPresentEffect succeeded initiator remote w)
| step_beforeRender : forall scene fires w,
    step w (beforeRender scene fires w)
| step_cameraMoved : forall c p w,
    step w (Camera_setPosition 1 c p w)
| step_button : forall c w,
    In c [startPresenting; stopPresenting; stopFollowing; endSuspension] ->
    step w (call c w)
| step_followUser : forall userId w,
    step w (call (followUser_call userId) w).



(** ** Tables the properties are stated against *)

(** The action the header offers for each follow-mode type, as a table. *)
Definition headerAction (t : FollowModeType) : Element :=
  match t with
  | local | activeFollowers => Button "primary" startPresenting "Spotlight me"
  | activePresenter => Button "primary" stopPresenting "Stop spotlight"
  | followUser | suspendFollowUser => Button "primary" stopFollowing "Stop following"
  | followPresenter | suspendFollowPresenter =>
      Button "secondary" startPresenting "Take control"
  end.

(** The material a name refers to exists in the scene and is a PBRMaterial. *)
Definition recolorable (scene : SceneRef) (name : string) (w : World) : bool :=
  match getMaterialByName scene name w with
  | Some m => instanceof_PBRMaterial (materialObjects w m)
  | None => false
  end.

(** Two states with the same loaded scene whose materials have the same
    names and classes (their colours may differ). *)
Definition sameShape (w w' : World) : Prop :=
  sceneRef w' = sceneRef w
  /\ scenes w' = scenes w
  /\ (forall m, Material_name (materialObjects w' m) = Material_name (materialObjects w m))
  /\ (forall m, instanceof_PBRMaterial (materialObjects w' m)
                = instanceof_PBRMaterial (materialObjects w m)).

(** [remoteCameraState?.value.cameraPosition]. *)
Definition remoteCameraPosition (remoteCameraState : option IFollowModeState)
  : option ICustomFollowData.Position :=
  match remoteCameraState with
  | Some state => ICustomFollowData.cameraPosition (value state)
  | None => None
  end.

(** The part of the state the page's own bookkeeping lives in. *)
Definition pageSame (w w' : World) : Prop :=
  sceneRef w' = sceneRef w
  /\ selectedMaterialName w' = selectedMaterialName w
  /\ isApplyingRemoteCameraUpdate w' = isApplyingRemoteCameraUpdate w.

(** What holds of every state the page can be in between two events: a
    material is only ever selected in a loaded scene, and no remote camera
    update is in progress. *)
Definition invariant (w : World) : Prop :=
  (selectedMaterialName w <> None -> sceneRef w <> None)
  /\ isApplyingRemoteCameraUpdate w = false.

(** The object [sendCameraPos] hands to the SDK for a camera position. *)
Definition cameraData (p : Vector3.t) : ICustomFollowData.t :=
  {| ICustomFollowData.cameraPosition :=
       Some {| ICustomFollowData.x := Vector3.x p;
               ICustomFollowData.y := Vector3.y p;
               ICustomFollowData.z := Vector3.z p |} |}.

(** The two calls [onCameraViewMatrixChanged] makes: the camera position
    sent by [sendCameraPos], and [beginSuspension]. *)
Definition isCameraPush (c : LiveShareCall) : bool :=
  match c with
  | updateUserCameraState _ => true
  | beginSuspension => true
  | _ => false
  end.

(** ** A small scene for worked examples *)

Definition num (m : positive) : number := S754_finite false m 0.

Definition demo_black : Color3 := Color3_rgb (S754_zero false) (S754_zero false) (S754_zero false).

(** Material 0 is the PBR material "body", material 1 the non-PBR material
    "glass", and every other reference a PBR material without a name. *)
Definition demo_materialObjects (r : MaterialRef) : Material :=
  match r with
  | 0 => PBRMaterial "body" demo_black
  | 1 => StandardMaterial "glass"
  | _ => PBRMaterial "" demo_black
  end.

(** Picking at x = 1 hits a mesh with material "body", at x = 2 a mesh
    without material, at x = 3 a mesh whose material has no name, at x = 4
    a mesh with material "glass"; everywhere else the pick misses. *)
Definition demo_pick (x y : number) : option PickingInfo :=
  match x with
  | S754_finite false 1%positive _ =>
      Some {| hit := true; pickedMesh := Some {| material := Some 0 |} |}
  | S754_finite false 2%positive _ =>
      Some {| hit := true; pickedMesh := Some {| material := None |} |}
  | S754_finite false 3%positive _ =>
      Some {| hit := true; pickedMesh := Some {| material := Some 2 |} |}
  | S754_finite false 4%positive _ =>
      Some {| hit := true; pickedMesh := Some {| material := Some 1 |} |}
  | _ => Some {| hit := false; pickedMesh := None |}
  end.

Definition demo_scene : Scene :=
  {| materials := [0; 1; 2];
     activeCamera := Some 0;
     pick := demo_pick;
     onPointerDown := None;
     onBeforeRenderObservable := [] |}.

Definition demo_camera : ArcRotateCamera :=
  {| position := Vector3.New (num 1) (num 2) (num 3);
     useAutoRotationBehavior := true;
     onViewMatrixChangedObservable := [];
     nextObserverId := 0 |}.

Definition demo_mounted : World :=
  {| scenes := fun _ => demo_scene;
     cameras := fun _ => demo_camera;
     materialObjects := demo_materialObjects;
     sceneRef := None;
     camera := None;
     isApplyingRemoteCameraUpdate := false;
     selectedMaterialName := None;
     hasInitiallyPresentedRef := false;
     liveShare := [] |}.

Definition click (x : positive) : IPointerEvent := {| clientX := num x; clientY := num 1 |}.

(** The viewer is ready, with scene 0 and its active camera. *)
Definition demo_loaded : World :=
  onReadyObservable None [] None None 0 (Some 0) demo_mounted.

(** Then the user clicks the mesh with material "body". *)
Definition demo_selected : World := pointerDown 0 (click 1) demo_loaded.

(** A presenter's state with a camera position, as the SDK reports it to a
    follower. *)
Definition demo_remote : IFollowModeState :=
  {| type := followPresenter;
     value :=
       {| ICustomFollowData.cameraPosition :=
            Some {| ICustomFollowData.x := num 7;
                    ICustomFollowData.y := num 8;
                    ICustomFollowData.z := num 9 |} |};
     followingUserId := "presenter";
     isLocalValue := false |}.

(** The camera effect has registered the view-matrix observer. *)
Definition demo_observed : World := fst (viewMatrixEffect (Some 0) demo_loaded).

(** The presenter moved: the snap callback queues the camera update. *)
Definition demo_queued : World :=
  snapCameraIfFollowingUser (Some demo_remote) (Some 0) demo_observed.

Definition demo_fires : EngineNotifications :=
  {| duringSetPosition := 1; duringUpdate := 2; duringUpdateCache := 1 |}.

(** A page whose <babylon-viewer> element has just been rendered: no
    listener is registered on it yet. *)
Definition rendered (w : World) : Page :=
  {| world := w; viewerRef := Some {| listeners := [] |}; effectCamera := None |}.

(** ** The tab: TabContent and LiveShareContentWrapper *)

(** The host handed to the LiveShareProvider. *)
Inductive Host : Type :=
| LiveShareHost_create
| TestLiveShareHost_create.

(** What the tab renders: the single-user viewer (a component outside these
    sources, left opaque), or the provider around the collaborative page. *)
Inductive Tab : Type :=
| SingleUserModelViewer
| LiveShareProvider (joinOnLoad : bool) (host : Host) (children : list Element).

(** Lines 56-67.  [IN_TEAMS] is the module constant of line 45; [joined] and
    [joinError] are what the provider's context reports; the rest are the
    results of the page's hooks. *)
Definition LiveShareContentWrapper (IN_TEAMS : bool)
  (joined : bool) (joinError : option Error)
  (colorsMap : list (string * string)) (sharedColorsMap : option SharedMap)
  (allUsers : list string) (remoteCameraState : option IFollowModeState)
  (w : World) : Tab :=
  let host := if IN_TEAMS then LiveShareHost_create else TestLiveShareHost_create in
  LiveShareProvider true host
    [LoadingErrorWrapper joined joinError
       [LiveObjectViewer colorsMap sharedColorsMap allUsers remoteCameraState w]].

(** Lines 47-54.  [isLiveShareSupported] is the result of the helper of that
    name, which is only consulted inside Teams. *)
Definition TabContent (IN_TEAMS : bool) (isLiveShareSupported : bool)
  (joined : bool) (joinError : option Error)
  (colorsMap : list (string * string)) (sharedColorsMap : option SharedMap)
  (allUsers : list string) (remoteCameraState : option IFollowModeState)
  (w : World) : Tab :=
  let isSupported := if IN_TEAMS then isLiveShareSupported else true in
  if negb isSupported then SingleUserModelViewer
  else LiveShareContentWrapper IN_TEAMS joined joinError colorsMap sharedColorsMap
         allUsers remoteCameraState w.

(** The elements the tab puts on screen inside the provider. *)
Definition Tab_children (t : Tab) : list Element :=
  match t with
  | SingleUserModelViewer => []
  | LiveShareProvider _ _ children => children
  end.

(** ** More queries on a rendered tree *)

(** The border colours of the decorative outlines in the tree. *)
Definition outlines (tree : Element) : list string :=
  flat_map (fun e => match e with DecorativeOutline c => [c] | _ => [] end)
           (nodes tree).

(** The [(followingUserId, zPosition)] of the live canvas overlays. *)
Definition canvasOverlays (tree : Element) : list (string * number) :=
  flat_map (fun e => match e with LiveCanvasOverlay u z => [(u, z)] | _ => [] end)
           (nodes tree).

(** The children of every follow-mode info bar. *)
Definition infoBars (tree : Element) : list (list Element) :=
  flat_map (fun e => match e with FollowModeInfoBar _ cs => [cs] | _ => [] end)
           (nodes tree).

(** The [color] prop of every colour picker. *)
Definition pickerColors (tree : Element) : list (option string) :=
  flat_map (fun e => match e with HexColorPicker c _ => [c] | _ => [] end)
           (nodes tree).

(** The outline colour by follow-mode type: red while presenting, blue while
    following, none while local or suspended. *)
Definition outlineColor (t : FollowModeType) : option string :=
  match t with
  | activePresenter | activeFollowers => Some tokens_colorPaletteRedBackground3
  | followPresenter | followUser => Some tokens_colorPaletteBlueBorderActive
  | local | suspendFollowPresenter | suspendFollowUser => None
  end.

(** [remoteCameraState.value?.cameraPosition?.z ?? 0]. *)
Definition zPositionOf (state : IFollowModeState) : number :=
  match ICustomFollowData.cameraPosition (value state) with
  | Some p => ICustomFollowData.z p
  | None => S754_zero false
  end.

(** The small button of the info bar by follow-mode type. *)
Definition infoBarButton (t : FollowModeType) : list Element :=
  match t with
  | activePresenter => [FollowModeSmallButton stopPresenting "STOP"]
  | followUser => [FollowModeSmallButton stopFollowing "STOP"]
  | suspendFollowPresenter => [FollowModeSmallButton endSuspension "FOLLOW"]
  | suspendFollowUser => [FollowModeSmallButton endSuspension "RESUME"]
  | local | activeFollowers | followPresenter => []
  end.

(** ** Vocabulary for the viewer element's listeners *)

(** Whether the element has a listener for an event type. *)
Definition listensTo (type : string) (el : HTML3DElement) : bool :=
  existsb (fun l => String.eqb (eventType l) type) (listeners el).

(** One mount followed by the unmount of ModelViewerScene on the element the
    page holds, with the abort controller of that mount. *)
Definition remount (p : Page) (abortController : AbortSignal) : Page :=
  ModelViewerScene_cleanup abortController (ModelViewerScene_effect abortController p).

(** The registration made on line 59. *)
Definition modelchange_registration : EventListener :=
  {| eventType := "modelchange";
     listener := modelchange_listener;
     once := false;
     signal := None |}.

(** ** Runs of the page *)

(** Any number of events, one after the other. *)
Inductive steps : World -> World -> Prop :=
| steps_refl : forall w, steps w w
| steps_step : forall w1 w2 w3, steps w1 w2 -> step w2 w3 -> steps w1 w3.

(** A call whose payload is complete: a map entry has a non-empty key, and a
    user state carries a camera position. *)
Definition wellFormedCall (c : LiveShareCall) : bool :=
  match c with
  | setMaterialColor key _ => negb (String.eqb key "")
  | updateUserCameraState data => truthy (ICustomFollowData.cameraPosition data)
  | _ => true
  end.

(** * Properties *)

(** ** Joining: LoadingErrorWrapper *)

(** C2.  LoadingErrorWrapper shows the join error's message whenever there
    is a join error; without an error and before the session is joined it
    shows a spinner; and it renders its children exactly when the session is
    joined and there is no join error. *)
Theorem LoadingErrorWrapper_cases :
  forall (joined : bool) (joinError : option Error) (children : list Element),
    (forall e, joinError = Some e ->
       LoadingErrorWrapper joined joinError children = Text (message e))
    /\ (joinError = None -> joined = false ->
        LoadingErrorWrapper joined joinError children = FlexColumn [Spinner])
    /\ (LoadingErrorWrapper joined joinError children = Fragment children
        <-> joined = true /\ joinError = None).
Proof.
  intros joined joinError children. split; [|split].
  - intros e ->. reflexivity.
  - intros -> ->. reflexivity.
  - split.
    + destruct joinError as [e|]; [discriminate|].
      destruct joined; [auto | discriminate].
    + intros [-> ->]. reflexivity.
Qed.

Lemma LoadingErrorWrapper_cases_witness :
  LoadingErrorWrapper true (Some {| message := "join failed" |}) [Spinner]
    = Text "join failed"
  /\ LoadingErrorWrapper false None [Spinner] = FlexColumn [Spinner]
  /\ LoadingErrorWrapper true None [Spinner] = Fragment [Spinner].
Proof.
  split; [|split].
  - exact (proj1 (LoadingErrorWrapper_cases true (Some {| message := "join failed" |})
                    [Spinner]) _ eq_refl).
  - exact (proj1 (proj2 (LoadingErrorWrapper_cases false None [Spinner])) eq_refl eq_refl).
  - exact (proj2 (proj2 (proj2 (LoadingErrorWrapper_cases true None [Spinner])))
             (conj eq_refl eq_refl)).
Defined.

(** ** The follow-mode buttons of the header *)

(** C10.  Whenever the follow-mode state is present, the page renders one
    top header bar, and its action slot holds exactly one button, the one the
    table gives for the state's type: Spotlight me for local and
    activeFollowers, Stop spotlight for activePresenter, Stop following for
    followUser and suspendFollowUser, Take control for followPresenter and
    suspendFollowPresenter. *)
Theorem header_has_exactly_one_action :
  forall colorsMap sharedColorsMap allUsers (state : IFollowModeState) (w : World),
    topHeaderBarActions
      (LiveObjectViewer colorsMap sharedColorsMap allUsers (Some state) w)
    = [[headerAction (type state)]].
Proof.
  intros colorsMap sharedColorsMap allUsers [t v f i] w.
  unfold topHeaderBarActions, LiveObjectViewer.
  destruct (truthy sharedColorsMap && truthy_string (selectedMaterialName w));
    destruct t; reflexivity.
Qed.

(** Without a follow-mode state there is no header bar at all. *)
Lemma no_header_without_state :
  forall colorsMap sharedColorsMap allUsers (w : World),
    topHeaderBarActions (LiveObjectViewer colorsMap sharedColorsMap allUsers None w) = [].
Proof.
  intros. unfold topHeaderBarActions, LiveObjectViewer.
  destruct (truthy sharedColorsMap && truthy_string (selectedMaterialName w));
    reflexivity.
Qed.

(** ** Selecting a material by clicking *)

Lemma truthy_string_spec :
  forall s, truthy_string s = true <-> exists name, s = Some name /\ name <> "".
Proof.
  intros [name|]; simpl.
  - rewrite negb_true_iff, String.eqb_neq. split.
    + intros H. exists name. auto.
    + intros [n [[= <-] H]]. exact H.
  - split; [discriminate | intros [n [H _]]; discriminate].
Qed.

Lemma rendersHexColorPicker_eq :
  forall colorsMap sharedColorsMap allUsers remoteCameraState (w : World),
    rendersHexColorPicker
      (LiveObjectViewer colorsMap sharedColorsMap allUsers remoteCameraState w)
    = truthy sharedColorsMap && truthy_string (selectedMaterialName w).
Proof.
  intros colorsMap sharedColorsMap allUsers remoteCameraState w.
  unfold rendersHexColorPicker, LiveObjectViewer. cbv zeta.
  destruct (truthy sharedColorsMap && truthy_string (selectedMaterialName w));
    destruct remoteCameraState as [[[] v f i]|]; reflexivity.
Qed.

(** What [handlePointerDown] does when the pick hits a mesh. *)
Lemma handlePointerDown_hit :
  forall sel evt (w : World) sc mesh,
    sceneRef w = Some sc ->
    hitMesh (pick (scenes w sc) (clientX evt) (clientY evt)) = Some mesh ->
    handlePointerDown sel evt w =
    match material mesh with
    | Some m => setSelectedMaterialName (Some (Material_name (materialObjects w m))) w
    | None => w
    end.
Proof.
  intros sel evt w sc mesh Hsc Hhit. unfold handlePointerDown.
  rewrite Hsc, Hhit. reflexivity.
Qed.

(** What it does when the pick hits no mesh. *)
Lemma handlePointerDown_miss :
  forall sel evt (w : World) sc,
    sceneRef w = Some sc ->
    hitMesh (pick (scenes w sc) (clientX evt) (clientY evt)) = None ->
    handlePointerDown sel evt w =
    if truthy_string sel then setSelectedMaterialName None w else w.
Proof.
  intros sel evt w sc Hsc Hmiss. unfold handlePointerDown.
  rewrite Hsc, Hmiss. destruct (truthy_string sel); reflexivity.
Qed.

Lemma hitMesh_Some :
  forall info mesh,
    hit info = true -> pickedMesh info = Some mesh -> hitMesh (Some info) = Some mesh.
Proof. intros info mesh Hh Hm. simpl. rewrite Hh. exact Hm. Qed.

(** C1, as amended.  For every pointer-down event on the scene (the scene
    the page holds in sceneRef), if the pick result has hit = true and a
    picked mesh whose material is not null, handlePointerDown sets the
    selected material name to that material's name; and the HexColorPicker is
    rendered exactly when the shared colors map exists and the selected
    material name is neither null nor the empty string. *)
Theorem click_selects_and_picker_shows :
  (forall sel evt (w : World) sc info mesh m,
      sceneRef w = Some sc ->
      pick (scenes w sc) (clientX evt) (clientY evt) = Some info ->
      hit info = true ->
      pickedMesh info = Some mesh ->
      material mesh = Some m ->
      selectedMaterialName (handlePointerDown sel evt w)
      = Some (Material_name (materialObjects w m)))
  /\ (forall colorsMap sharedColorsMap allUsers remoteCameraState (w : World),
         rendersHexColorPicker
           (LiveObjectViewer colorsMap sharedColorsMap allUsers remoteCameraState w) = true
         <-> (sharedColorsMap <> None
              /\ exists name, selectedMaterialName w = Some name /\ name <> "")).
Proof.
  split.
  - intros sel evt w sc info mesh m Hsc Hpick Hhit Hmesh Hmat.
    rewrite (handlePointerDown_hit sel evt w sc mesh Hsc).
    + rewrite Hmat. reflexivity.
    + rewrite Hpick. apply hitMesh_Some; assumption.
  - intros colorsMap sharedColorsMap allUsers remoteCameraState w.
    rewrite rendersHexColorPicker_eq, andb_true_iff, truthy_string_spec.
    destruct sharedColorsMap; simpl; intuition congruence.
Qed.

Lemma click_selects_and_picker_shows_witness :
  selectedMaterialName (handlePointerDown None (click 1) demo_loaded) = Some "body"
  /\ rendersHexColorPicker (LiveObjectViewer [] (Some 0) [] None demo_selected) = true.
Proof.
  split.
  - exact (proj1 click_selects_and_picker_shows None (click 1) demo_loaded 0
             {| hit := true; pickedMesh := Some {| material := Some 0 |} |}
             {| material := Some 0 |} 0 eq_refl eq_refl eq_refl eq_refl eq_refl).
  - apply (proj2 click_selects_and_picker_shows [] (Some 0) [] None demo_selected).
    split; [discriminate|]. exists "body". split; [reflexivity | discriminate].
Defined.

(** C1, as stated, fails on a material without a name: after a click on a
    mesh whose material is named by the empty string the selected material
    name is that (non-null) string and the shared colors map exists, yet the
    HexColorPicker is not rendered. *)
Lemma unnamed_material_shows_no_picker :
  selectedMaterialName (handlePointerDown None (click 3) demo_loaded) = Some ""
  /\ rendersHexColorPicker
       (LiveObjectViewer [] (Some 0) [] None
          (handlePointerDown None (click 3) demo_loaded)) = false.
Proof. split; reflexivity. Qed.

(** On a miss, a selection that is neither null nor empty is cleared. *)
Lemma miss_clears_selection :
  forall evt (w : World) sc,
    sceneRef w = Some sc ->
    hitMesh (pick (scenes w sc) (clientX evt) (clientY evt)) = None ->
    truthy_string (selectedMaterialName w) = true ->
    selectedMaterialName (handlePointerDown (selectedMaterialName w) evt w) = None.
Proof.
  intros evt w sc Hsc Hmiss Hsel.
  rewrite (handlePointerDown_miss _ evt w sc Hsc Hmiss), Hsel. reflexivity.
Qed.

(** C9.  handlePointerDown leaves the state as it is when the pick hits a
    mesh whose material is null; it clears the selection (the selected
    material name goes from non-null to null) only when the pick hits no
    mesh and a material is currently selected; and when no mesh is hit and
    nothing is selected the state is left as it is. *)
Theorem handlePointerDown_frame :
  (forall sel evt (w : World) sc info mesh,
      sceneRef w = Some sc ->
      pick (scenes w sc) (clientX evt) (clientY evt) = Some info ->
      hit info = true ->
      pickedMesh info = Some mesh ->
      material mesh = None ->
      handlePointerDown sel evt w = w)
  /\ (forall evt (w : World),
         selectedMaterialName w <> None ->
         selectedMaterialName (handlePointerDown (selectedMaterialName w) evt w) = None ->
         (exists sc, sceneRef w = Some sc
                     /\ hitMesh (pick (scenes w sc) (clientX evt) (clientY evt)) = None)
         /\ truthy_string (selectedMaterialName w) = true)
  /\ (forall evt (w : World) sc,
         sceneRef w = Some sc ->
         hitMesh (pick (scenes w sc) (clientX evt) (clientY evt)) = None ->
         selectedMaterialName w = None ->
         handlePointerDown (selectedMaterialName w) evt w = w).
Proof.
  split; [|split].
  - intros sel evt w sc info mesh Hsc Hpick Hhit Hmesh Hmat.
    rewrite (handlePointerDown_hit sel evt w sc mesh Hsc).
    + rewrite Hmat. reflexivity.
    + rewrite Hpick. apply hitMesh_Some; assumption.
  - intros evt w Hsel Hcleared.
    destruct (sceneRef w) as [sc|] eqn:Hsc.
    + destruct (hitMesh (pick (scenes w sc) (clientX evt) (clientY evt)))
        as [mesh|] eqn:Hhit.
      * rewrite (handlePointerDown_hit _ evt w sc mesh Hsc Hhit) in Hcleared.
        destruct (material mesh); [discriminate | contradiction].
      * rewrite (handlePointerDown_miss _ evt w sc Hsc Hhit) in Hcleared.
        destruct (truthy_string (selectedMaterialName w)).
        -- split; [exists sc; auto | reflexivity].
        -- contradiction.
    + unfold handlePointerDown in Hcleared. rewrite Hsc in Hcleared. contradiction.
  - intros evt w sc Hsc Hmiss Hnone.
    rewrite (handlePointerDown_miss _ evt w sc Hsc Hmiss), Hnone. reflexivity.
Qed.

Lemma handlePointerDown_frame_witness :
  handlePointerDown (Some "body") (click 2) demo_selected = demo_selected
  /\ ((exists sc, sceneRef demo_selected = Some sc
                  /\ hitMesh (pick (scenes demo_selected sc) (clientX (click 5))
                                (clientY (click 5))) = None)
      /\ truthy_string (selectedMaterialName demo_selected) = true)
  /\ handlePointerDown (selectedMaterialName demo_loaded) (click 5) demo_loaded
     = demo_loaded.
Proof.
  split; [|split].
  - exact (proj1 handlePointerDown_frame (Some "body") (click 2) demo_selected 0
             {| hit := true; pickedMesh := Some {| material := None |} |}
             {| material := None |} eq_refl eq_refl eq_refl eq_refl eq_refl).
  - apply (proj1 (proj2 handlePointerDown_frame) (click 5) demo_selected).
    + discriminate.
    + reflexivity.
  - exact (proj2 (proj2 handlePointerDown_frame) (click 5) demo_loaded 0
             eq_refl eq_refl eq_refl).
Defined.

(** ** Absent scene, camera or material *)

Lemma recolor_skips :
  forall scene name value (w : World),
    recolorable scene name w = false ->
    recolor (getMaterialByName scene name w) value w = w.
Proof.
  intros scene name value w. unfold recolorable, recolor.
  destruct (getMaterialByName scene name w) as [m|]; [|reflexivity].
  intros ->. reflexivity.
Qed.

(** [recolor] writes to one object only: the material it was given, and only
    if that is a PBRMaterial. *)
Lemma recolor_writes_only :
  forall mat value (w : World) m',
    materialObjects (recolor mat value w) m' <> materialObjects w m' ->
    mat = Some m' /\ instanceof_PBRMaterial (materialObjects w m') = true.
Proof.
  intros mat value w m'. unfold recolor.
  destruct mat as [m|]; [|intros H; contradiction H; reflexivity].
  destruct (instanceof_PBRMaterial (materialObjects w m)) eqn:Hpbr;
    [|intros H; contradiction H; reflexivity].
  simpl. unfold update. destruct (Nat.eqb m' m) eqn:Heq.
  - apply Nat.eqb_eq in Heq. subst m'. auto.
  - intros H. contradiction H. reflexivity.
Qed.

Lemma recolor_engine :
  forall mat value (w : World),
    scenes (recolor mat value w) = scenes w
    /\ cameras (recolor mat value w) = cameras w
    /\ sceneRef (recolor mat value w) = sceneRef w
    /\ camera (recolor mat value w) = camera w
    /\ selectedMaterialName (recolor mat value w) = selectedMaterialName w
    /\ isApplyingRemoteCameraUpdate (recolor mat value w) = isApplyingRemoteCameraUpdate w
    /\ liveShare (recolor mat value w) = liveShare w.
Proof.
  intros mat value w. unfold recolor.
  destruct mat as [m|]; [destruct (instanceof_PBRMaterial (materialObjects w m))|];
    simpl; repeat split; reflexivity.
Qed.

Lemma sameShape_refl : forall w, sameShape w w.
Proof. intros w. repeat split; reflexivity. Qed.

Lemma sameShape_trans :
  forall w1 w2 w3, sameShape w1 w2 -> sameShape w2 w3 -> sameShape w1 w3.
Proof.
  intros w1 w2 w3 (Hr & Hs & Hn & Hc) (Hr' & Hs' & Hn' & Hc').
  repeat split.
  - congruence.
  - congruence.
  - intros m. rewrite Hn'. apply Hn.
  - intros m. rewrite Hc'. apply Hc.
Qed.

Lemma recolor_sameShape :
  forall mat value (w : World), sameShape w (recolor mat value w).
Proof.
  intros mat value w. unfold recolor.
  destruct mat as [m|]; [|apply sameShape_refl].
  destruct (instanceof_PBRMaterial (materialObjects w m)) eqn:Hpbr;
    [|apply sameShape_refl].
  repeat split; simpl; try reflexivity; intros m'; unfold update;
    destruct (Nat.eqb m' m) eqn:Heq; try reflexivity;
    apply Nat.eqb_eq in Heq; subst m';
    destruct (materialObjects w m); simpl in *; congruence.
Qed.

Lemma findMaterialByName_names :
  forall (objects objects' : MaterialRef -> Material) name ms,
    (forall m, Material_name (objects' m) = Material_name (objects m)) ->
    findMaterialByName objects' name ms = findMaterialByName objects name ms.
Proof.
  intros objects objects' name ms Hn.
  induction ms as [|m rest IH]; simpl; [reflexivity|].
  rewrite Hn, IH. reflexivity.
Qed.

Lemma recolorable_sameShape :
  forall scene name w w',
    sameShape w w' -> recolorable scene name w' = recolorable scene name w.
Proof.
  intros scene name w w' (Hr & Hs & Hn & Hc).
  unfold recolorable, getMaterialByName.
  rewrite Hs, (findMaterialByName_names (materialObjects w) (materialObjects w') name _ Hn).
  destruct (findMaterialByName _ _ _); [apply Hc | reflexivity].
Qed.

Lemma applyRemoteColors_unloaded :
  forall colorsMap (w : World), sceneRef w = None -> applyRemoteColors colorsMap w = w.
Proof.
  intros colorsMap w Hnone. unfold applyRemoteColors.
  induction colorsMap as [|[key value] rest IH]; simpl; [reflexivity|].
  rewrite Hnone. exact IH.
Qed.

Lemma applyRemoteColor_loaded :
  forall (w : World) key value scene,
    sceneRef w = Some scene ->
    applyRemoteColor w (key, value) = recolor (getMaterialByName scene key w) value w.
Proof. intros w key value scene H. simpl. rewrite H. reflexivity. Qed.

(** Entries that name no PBR material of the scene can be dropped from the
    map without changing what [applyRemoteColors] does. *)
Lemma applyRemoteColors_skips_from :
  forall colorsMap (w0 w : World) scene,
    sceneRef w0 = Some scene ->
    sameShape w0 w ->
    applyRemoteColors colorsMap w
    = applyRemoteColors (filter (fun e => recolorable scene (fst e) w0) colorsMap) w.
Proof.
  unfold applyRemoteColors.
  induction colorsMap as [|[key value] rest IH]; intros w0 w scene Hsc Hshape;
    [reflexivity|].
  assert (Hw : sceneRef w = Some scene) by (destruct Hshape as [-> _]; exact Hsc).
  cbn [filter fst fold_left].
  pose proof (recolorable_sameShape scene key w0 w Hshape) as Hsame.
  rewrite (applyRemoteColor_loaded w key value scene Hw).
  destruct (recolorable scene key w0) eqn:Hrec.
  - cbn [fold_left]. rewrite (applyRemoteColor_loaded w key value scene Hw).
    apply IH; [exact Hsc|].
    eapply sameShape_trans; [exact Hshape | apply recolor_sameShape].
  - rewrite recolor_skips by exact Hsame. apply IH; assumption.
Qed.

Lemma onChangeColor_writes_only :
  forall sel throws value (w : World) m',
    materialObjects (onChangeColor sel throws value w) m' <> materialObjects w m' ->
    exists name scene,
      sel = Some name /\ sceneRef w = Some scene
      /\ getMaterialByName scene name w = Some m'
      /\ instanceof_PBRMaterial (materialObjects w m') = true.
Proof.
  intros sel throws value w m'. unfold onChangeColor.
  destruct (negb (truthy_string sel)); [intros H; contradiction H; reflexivity|].
  destruct sel as [name|]; [|intros H; contradiction H; reflexivity].
  destruct (sceneRef w) as [scene|] eqn:Hsc; [|intros H; contradiction H; reflexivity].
  destruct throws; [intros H; contradiction H; reflexivity|].
  intros H.
  destruct (recolor_writes_only _ value (call (setMaterialColor name value) w) m' H)
    as [Hfound Hpbr].
  exists name, scene. auto.
Qed.

(** C3.  The page checks the scene, the camera and a named material for
    absence before using them.  onChangeColor returns with the state as it
    was when the selected material name or the scene is null, and the only
    object it ever recolors is the material the scene has under the selected
    name, provided it is a PBRMaterial.  sendCameraPos returns when the
    camera is null.  snapCameraIfFollowingUser returns when the remote camera
    position or the camera is null.  applyRemoteColors skips every map entry
    whose material is absent or not a PBRMaterial (the map without those
    entries has the same effect), and does nothing while no scene is loaded.
    handlePointerDown and the two effects that touch the scene or the camera
    return when it is null. *)
Theorem absent_references_are_skipped :
  (forall sel throws value (w : World),
      sel = None \/ sceneRef w = None -> onChangeColor sel throws value w = w)
  /\ (forall sel throws value (w : World) m',
         materialObjects (onChangeColor sel throws value w) m' <> materialObjects w m' ->
         exists name scene,
           sel = Some name /\ sceneRef w = Some scene
           /\ getMaterialByName scene name w = Some m'
           /\ instanceof_PBRMaterial (materialObjects w m') = true)
  /\ (forall (w : World), sendCameraPos None w = w)
  /\ (forall remoteCameraState cam (w : World),
         remoteCameraPosition remoteCameraState = None \/ cam = None ->
         snapCameraIfFollowingUser remoteCameraState cam w = w)
  /\ (forall (w : World) key value scene,
         sceneRef w = Some scene ->
         recolorable scene key w = false ->
         applyRemoteColor w (key, value) = w)
  /\ (forall colorsMap (w : World) scene,
         sceneRef w = Some scene ->
         applyRemoteColors colorsMap w
         = applyRemoteColors
             (filter (fun e => recolorable scene (fst e) w) colorsMap) w)
  /\ (forall colorsMap (w : World),
         sceneRef w = None -> applyRemoteColors colorsMap w = w)
  /\ (forall sel evt (w : World),
         sceneRef w = None ->
         handlePointerDown sel evt w = w
         /\ pointerDownEffect sel w = w
         /\ pointerDownEffect_cleanup w = w)
  /\ (forall (w : World), viewMatrixEffect None w = (w, None)).
Proof.
  repeat match goal with |- _ /\ _ => split end.
  - intros sel throws value w [-> | Hsc]; [reflexivity|].
    unfold onChangeColor. rewrite Hsc.
    destruct (negb (truthy_string sel)); [reflexivity|].
    destruct sel; reflexivity.
  - exact onChangeColor_writes_only.
  - reflexivity.
  - intros remoteCameraState cam w H. unfold snapCameraIfFollowingUser.
    destruct remoteCameraState as [state|]; [|reflexivity].
    simpl in H.
    destruct (ICustomFollowData.cameraPosition (value state)); [|reflexivity].
    destruct (isLocalValue state); [reflexivity|].
    destruct H as [H | ->]; [discriminate | reflexivity].
  - intros w key value scene Hsc Hrec.
    rewrite (applyRemoteColor_loaded w key value scene Hsc).
    apply recolor_skips. exact Hrec.
  - intros colorsMap w scene Hsc.
    apply applyRemoteColors_skips_from; [exact Hsc | apply sameShape_refl].
  - exact applyRemoteColors_unloaded.
  - intros sel evt w Hsc.
    unfold handlePointerDown, pointerDownEffect, pointerDownEffect_cleanup.
    rewrite Hsc. auto.
  - reflexivity.
Qed.

Lemma absent_references_are_skipped_witness :
  onChangeColor None false "#ff0000" demo_selected = demo_selected
  /\ (exists name scene,
         Some "body" = Some name /\ sceneRef demo_selected = Some scene
         /\ getMaterialByName scene name demo_selected = Some 0
         /\ instanceof_PBRMaterial (materialObjects demo_selected 0) = true)
  /\ snapCameraIfFollowingUser None (Some 0) demo_loaded = demo_loaded
  /\ applyRemoteColor demo_loaded ("glass", "#00ff00") = demo_loaded
  /\ applyRemoteColors [("glass", "#00ff00"); ("body", "#ff0000"); ("wheel", "#0000ff")]
       demo_loaded
     = applyRemoteColors
         (filter (fun e => recolorable 0 (fst e) demo_loaded)
            [("glass", "#00ff00"); ("body", "#ff0000"); ("wheel", "#0000ff")])
         demo_loaded
  /\ applyRemoteColors [("body", "#ff0000")] demo_mounted = demo_mounted
  /\ handlePointerDown None (click 1) demo_mounted = demo_mounted.
Proof.
  pose proof absent_references_are_skipped
    as (Hchange & Honly & _ & Hsnap & Hskip & Hfilter & Hunloaded & Hpointer & _).
  repeat match goal with |- _ /\ _ => split end.
  - apply Hchange. left. reflexivity.
  - apply (Honly (Some "body") false "#ff0000" demo_selected 0). discriminate.
  - apply Hsnap. left. reflexivity.
  - apply (Hskip demo_loaded "glass" "#00ff00" 0); reflexivity.
  - apply (Hfilter _ demo_loaded 0). reflexivity.
  - apply Hunloaded. reflexivity.
  - apply (Hpointer None (click 1) demo_mounted). reflexivity.
Defined.

(** ** Remote camera updates are not echoed *)

Lemma onCameraViewMatrixChanged_applying :
  forall cam (w : World),
    isApplyingRemoteCameraUpdate w = true -> onCameraViewMatrixChanged cam w = w.
Proof. intros cam w H. unfold onCameraViewMatrixChanged. rewrite H. reflexivity. Qed.

Lemma notifyViewMatrixChanged_applying :
  forall c (w : World),
    isApplyingRemoteCameraUpdate w = true -> notifyViewMatrixChanged c w = w.
Proof.
  intros c w H. unfold notifyViewMatrixChanged.
  induction (onViewMatrixChangedObservable (cameras w c)) as [|o rest IH];
    simpl; [reflexivity|].
  unfold runViewMatrixCallback at 2. destruct (callback o) as [cam].
  rewrite (onCameraViewMatrixChanged_applying cam w H). exact IH.
Qed.

Lemma notifyTimes_applying :
  forall n c (w : World),
    isApplyingRemoteCameraUpdate w = true -> notifyTimes n c w = w.
Proof.
  induction n as [|n IH]; intros c w H; simpl; [reflexivity|].
  rewrite (notifyViewMatrixChanged_applying c w H). apply IH. exact H.
Qed.

(** Whatever the engine reports while it runs, the before-render callback
    amounts to moving the camera. *)
Lemma applyRemoteCamera_eq :
  forall c pos fires (w : World),
    applyRemoteCamera c pos fires w
    = set_isApplyingRemoteCameraUpdate false
        (set_cameras (update (cameras w) c (Camera_set_position pos (cameras w c)))
           (set_isApplyingRemoteCameraUpdate true w)).
Proof.
  intros c pos fires w.
  unfold applyRemoteCamera, Camera_setPosition, Camera_update, Camera_updateCache.
  rewrite (notifyTimes_applying (duringSetPosition fires)) by reflexivity.
  rewrite (notifyTimes_applying (duringUpdate fires)) by reflexivity.
  rewrite (notifyTimes_applying (duringUpdateCache fires)) by reflexivity.
  reflexivity.
Qed.

Lemma beforeRender_liveShare :
  forall scene fires (w : World), liveShare (beforeRender scene fires w) = liveShare w.
Proof.
  intros scene fires w. unfold beforeRender.
  destruct (onBeforeRenderObservable (scenes w scene)) as [|[c pos] rest];
    [reflexivity|].
  unfold runBeforeRenderCallback. rewrite applyRemoteCamera_eq. reflexivity.
Qed.

Lemma applyRemoteColors_liveShare :
  forall colorsMap (w : World), liveShare (applyRemoteColors colorsMap w) = liveShare w.
Proof.
  unfold applyRemoteColors.
  induction colorsMap as [|[key value] rest IH]; intros w; simpl; [reflexivity|].
  rewrite IH. destruct (sceneRef w); [|reflexivity].
  apply recolor_engine.
Qed.

Lemma snapCameraIfFollowingUser_liveShare :
  forall remote cam (w : World),
    liveShare (snapCameraIfFollowingUser remote cam w) = liveShare w.
Proof.
  intros remote cam w. unfold snapCameraIfFollowingUser.
  destruct remote as [state|]; [|reflexivity].
  destruct (ICustomFollowData.cameraPosition (value state)); [|reflexivity].
  destruct (isLocalValue state); [reflexivity|].
  destruct cam; [|reflexivity].
  destruct (sceneRef w); reflexivity.
Qed.

Lemma handlePointerDown_liveShare :
  forall sel evt (w : World), liveShare (handlePointerDown sel evt w) = liveShare w.
Proof.
  intros sel evt w. unfold handlePointerDown.
  destruct (sceneRef w); [|reflexivity].
  destruct (hitMesh _) as [mesh|].
  - destruct (material mesh); reflexivity.
  - destruct (negb (truthy_string sel)); reflexivity.
Qed.

Lemma onChangeColor_liveShare_cases :
  forall sel throws value (w : World),
    liveShare (onChangeColor sel throws value w) = liveShare w
    \/ exists name,
         liveShare (onChangeColor sel throws value w)
         = liveShare w ++ [setMaterialColor name value].
Proof.
  intros sel throws value w. unfold onChangeColor.
  destruct (negb (truthy_string sel)); [left; reflexivity|].
  destruct sel as [name|]; [|left; reflexivity].
  destruct (sceneRef w) as [scene|]; [|left; reflexivity].
  right. exists name. destruct throws; [reflexivity|].
  destruct (recolor_engine (getMaterialByName scene name
                              (call (setMaterialColor name value) w)) value
              (call (setMaterialColor name value) w)) as (_ & _ & _ & _ & _ & _ & Hlog).
  rewrite Hlog. reflexivity.
Qed.

(** Of all the things that can happen to the page, only a camera move made
    by the local user adds a camera position or a suspension to the calls. *)
Lemma camera_pushes_come_from_local_moves :
  forall (w w' : World),
    step w w' ->
    (exists extra,
        liveShare w' = liveShare w ++ extra
        /\ forallb (fun c => negb (isCameraPush c)) extra = true)
    \/ (exists c p, w' = Camera_setPosition 1 c p w).
Proof.
  intros w w' Hstep.
  destruct Hstep
    as [sel colors remote cam0 sc cam w | sc evt w | sel throws value w | sel w | w
       | colors w | remote cam w | cam w | observer w | succeeded initiator remote w
       | sc fires w | c p w | c w Hc | userId w].
  - left. exists []. split; [|reflexivity]. rewrite app_nil_r.
    unfold onReadyObservable, setCamera. simpl.
    rewrite snapCameraIfFollowingUser_liveShare, applyRemoteColors_liveShare.
    reflexivity.
  - left. exists []. split; [|reflexivity]. rewrite app_nil_r.
    unfold pointerDown. destruct (onPointerDown (scenes w sc)) as [[sel]|];
      [apply handlePointerDown_liveShare | reflexivity].
  - left. destruct (onChangeColor_liveShare_cases sel throws value w) as [H | [name H]].
    + exists []. rewrite app_nil_r. split; [exact H | reflexivity].
    + exists [setMaterialColor name value]. split; [exact H | reflexivity].
  - left. exists []. split; [|reflexivity]. rewrite app_nil_r.
    unfold pointerDownEffect. destruct (sceneRef w); reflexivity.
  - left. exists []. split; [|reflexivity]. rewrite app_nil_r.
    unfold pointerDownEffect_cleanup. destruct (sceneRef w); reflexivity.
  - left. exists []. split; [|reflexivity]. rewrite app_nil_r.
    apply applyRemoteColors_liveShare.
  - left. exists []. split; [|reflexivity]. rewrite app_nil_r.
    apply snapCameraIfFollowingUser_liveShare.
  - left. exists []. split; [|reflexivity]. rewrite app_nil_r.
    destruct cam; reflexivity.
  - left. exists []. split; [|reflexivity]. rewrite app_nil_r.
    destruct observer as [[c id]|]; reflexivity.
  - left. unfold initialPresentEffect.
    destruct (negb succeeded);
      [exists []; rewrite app_nil_r; split; reflexivity|].
    destruct (negb initiator);
      [exists []; rewrite app_nil_r; split; reflexivity|].
    destruct remote as [state|];
      [|exists []; rewrite app_nil_r; split; reflexivity].
    destruct (negb (FollowModeType_eqb (type state) local));
      [exists []; rewrite app_nil_r; split; reflexivity|].
    destruct (hasInitiallyPresentedRef w);
      [exists []; rewrite app_nil_r; split; reflexivity|].
    exists [startPresenting]. split; reflexivity.
  - left. exists []. split; [|reflexivity]. rewrite app_nil_r.
    apply beforeRender_liveShare.
  - right. exists c, p. reflexivity.
  - left. exists [c]. split; [reflexivity|].
    simpl in Hc. destruct Hc as [<- | [<- | [<- | [<- | []]]]]; reflexivity.
  - left. exists [followUser_call userId]. split; reflexivity.
Qed.

(** C8.  While a remote camera update is being applied (the flag is set),
    the view-matrix callback leaves the state alone: it sends no camera
    position and begins no suspension.  Hence the before-render callback
    that applies a remote position, and the engine step that runs it, make
    no call to the SDK however often the engine reports a changed view
    matrix inside it; whenever the view-matrix callback does call the SDK,
    no remote update was being applied; and among all the events of the
    page only a camera move by the local user adds a camera position or a
    suspension to the calls. *)
Theorem remote_camera_update_is_not_echoed :
  (forall cam (w : World),
      isApplyingRemoteCameraUpdate w = true -> onCameraViewMatrixChanged cam w = w)
  /\ (forall c pos fires (w : World),
         liveShare (applyRemoteCamera c pos fires w) = liveShare w)
  /\ (forall scene fires (w : World),
         liveShare (beforeRender scene fires w) = liveShare w)
  /\ (forall cam (w : World),
         liveShare (onCameraViewMatrixChanged cam w) <> liveShare w ->
         isApplyingRemoteCameraUpdate w = false)
  /\ (forall (w w' : World),
         step w w' ->
         (exists extra,
             liveShare w' = liveShare w ++ extra
             /\ forallb (fun c => negb (isCameraPush c)) extra = true)
         \/ (exists c p, w' = Camera_setPosition 1 c p w)).
Proof.
  repeat match goal with |- _ /\ _ => split end.
  - exact onCameraViewMatrixChanged_applying.
  - intros c pos fires w. rewrite applyRemoteCamera_eq. reflexivity.
  - exact beforeRender_liveShare.
  - intros cam w H.
    destruct (isApplyingRemoteCameraUpdate w) eqn:Hflag; [|reflexivity].
    rewrite (onCameraViewMatrixChanged_applying cam w Hflag) in H.
    contradiction H. reflexivity.
  - exact camera_pushes_come_from_local_moves.
Qed.

Lemma remote_camera_update_is_not_echoed_witness :
  onCameraViewMatrixChanged (Some 0) (set_isApplyingRemoteCameraUpdate true demo_observed)
  = set_isApplyingRemoteCameraUpdate true demo_observed
  /\ liveShare (beforeRender 0 demo_fires demo_queued) = liveShare demo_queued
  /\ isApplyingRemoteCameraUpdate demo_observed = false
  /\ ((exists extra,
          liveShare (beforeRender 0 demo_fires demo_queued)
          = liveShare demo_queued ++ extra
          /\ forallb (fun c => negb (isCameraPush c)) extra = true)
      \/ (exists c p, beforeRender 0 demo_fires demo_queued
                        = Camera_setPosition 1 c p demo_queued)).
Proof.
  pose proof remote_camera_update_is_not_echoed
    as (Hguard & _ & Hrender & Honly & Hstep).
  repeat match goal with |- _ /\ _ => split end.
  - apply Hguard. reflexivity.
  - apply Hrender.
  - apply (Honly (Some 0) demo_observed). discriminate.
  - apply Hstep. apply step_beforeRender.
Defined.

(** ** The invariant of the page *)

Lemma pageSame_refl : forall w, pageSame w w.
Proof. intros w. repeat split; reflexivity. Qed.

Lemma pageSame_trans :
  forall w1 w2 w3, pageSame w1 w2 -> pageSame w2 w3 -> pageSame w1 w3.
Proof.
  intros w1 w2 w3 (H1 & H2 & H3) (H1' & H2' & H3').
  repeat split; congruence.
Qed.

Lemma pageSame_invariant :
  forall w w', pageSame w w' -> invariant w -> invariant w'.
Proof.
  intros w w' (H1 & H2 & H3) [Hsel Hflag]. split.
  - rewrite H1, H2. exact Hsel.
  - rewrite H3. exact Hflag.
Qed.

Lemma recolor_pageSame : forall mat value (w : World), pageSame w (recolor mat value w).
Proof.
  intros mat value w.
  destruct (recolor_engine mat value w) as (_ & _ & H1 & _ & H2 & H3 & _).
  repeat split; assumption.
Qed.

Lemma applyRemoteColor_pageSame :
  forall (w : World) entry, pageSame w (applyRemoteColor w entry).
Proof.
  intros w [key value]. simpl.
  destruct (sceneRef w); [apply recolor_pageSame | apply pageSame_refl].
Qed.

Lemma applyRemoteColors_pageSame :
  forall colorsMap (w : World), pageSame w (applyRemoteColors colorsMap w).
Proof.
  unfold applyRemoteColors.
  induction colorsMap as [|entry rest IH]; intros w; simpl; [apply pageSame_refl|].
  eapply pageSame_trans; [apply applyRemoteColor_pageSame | apply IH].
Qed.

Lemma snapCameraIfFollowingUser_pageSame :
  forall remote cam (w : World), pageSame w (snapCameraIfFollowingUser remote cam w).
Proof.
  intros remote cam w. unfold snapCameraIfFollowingUser.
  destruct remote as [state|]; [|apply pageSame_refl].
  destruct (ICustomFollowData.cameraPosition (value state)); [|apply pageSame_refl].
  destruct (isLocalValue state); [apply pageSame_refl|].
  destruct cam; [|apply pageSame_refl].
  destruct (sceneRef w) eqn:Hsc; [|apply pageSame_refl].
  repeat split; reflexivity.
Qed.

Lemma onCameraViewMatrixChanged_pageSame :
  forall cam (w : World), pageSame w (onCameraViewMatrixChanged cam w).
Proof.
  intros cam w. unfold onCameraViewMatrixChanged, sendCameraPos.
  destruct (negb (isApplyingRemoteCameraUpdate w)); [|apply pageSame_refl].
  destruct cam; repeat split; reflexivity.
Qed.

Lemma runViewMatrixCallbacks_pageSame :
  forall observers (w : World), pageSame w (fold_left runViewMatrixCallback observers w).
Proof.
  induction observers as [|o rest IH]; intros w; simpl; [apply pageSame_refl|].
  eapply pageSame_trans; [|apply IH].
  unfold runViewMatrixCallback. destruct (callback o).
  apply onCameraViewMatrixChanged_pageSame.
Qed.

Lemma notifyTimes_pageSame :
  forall n c (w : World), pageSame w (notifyTimes n c w).
Proof.
  induction n as [|n IH]; intros c w; simpl; [apply pageSame_refl|].
  eapply pageSame_trans; [|apply IH].
  apply runViewMatrixCallbacks_pageSame.
Qed.

Lemma onChangeColor_pageSame :
  forall sel throws value (w : World), pageSame w (onChangeColor sel throws value w).
Proof.
  intros sel throws value w. unfold onChangeColor.
  destruct (negb (truthy_string sel)); [apply pageSame_refl|].
  destruct sel as [name|]; [|apply pageSame_refl].
  destruct (sceneRef w) as [scene|] eqn:Hsc; [|apply pageSame_refl].
  destruct throws.
  - repeat split; reflexivity.
  - eapply pageSame_trans; [|apply recolor_pageSame]. repeat split; reflexivity.
Qed.

Lemma handlePointerDown_invariant :
  forall sel evt (w : World), invariant w -> invariant (handlePointerDown sel evt w).
Proof.
  intros sel evt w [Hsel Hflag]. unfold handlePointerDown.
  destruct (sceneRef w) as [scene|] eqn:Hsc; [|split; [rewrite Hsc|]; assumption].
  destruct (hitMesh _) as [mesh|].
  - destruct (material mesh); [|split; [rewrite Hsc|]; assumption].
    split; simpl; [rewrite Hsc; discriminate | exact Hflag].
  - destruct (negb (truthy_string sel)); [split; [rewrite Hsc|]; assumption|].
    split; simpl; [rewrite Hsc; discriminate | exact Hflag].
Qed.

Lemma step_invariant : forall w w', step w w' -> invariant w -> invariant w'.
Proof.
  intros w w' Hstep Hinv.
  destruct Hstep
    as [sel colors remote cam0 sc cam w | sc evt w | sel throws value w | sel w | w
       | colors w | remote cam w | cam w | observer w | succeeded initiator remote w
       | sc fires w | c p w | c w Hc | userId w].
  - (* viewer ready *)
    unfold onReadyObservable, setCamera.
    set (w1 := assign_onPointerDown sc _ (set_sceneRef (Some sc) w)).
    assert (H1 : invariant w1).
    { destruct Hinv as [_ Hflag]. split; [simpl; discriminate | exact Hflag]. }
    apply (pageSame_invariant
             (snapCameraIfFollowingUser remote cam0 (applyRemoteColors colors w1)));
      [repeat split; reflexivity|].
    apply (pageSame_invariant (applyRemoteColors colors w1));
      [apply snapCameraIfFollowingUser_pageSame|].
    apply (pageSame_invariant w1); [apply applyRemoteColors_pageSame | exact H1].
  - (* pointer down *)
    unfold pointerDown. destruct (onPointerDown (scenes w sc)) as [[sel]|];
      [apply handlePointerDown_invariant|]; exact Hinv.
  - exact (pageSame_invariant _ _ (onChangeColor_pageSame sel throws value w) Hinv).
  - apply (pageSame_invariant w); [|exact Hinv].
    unfold pointerDownEffect. destruct (sceneRef w) eqn:Hsc;
      repeat split; reflexivity.
  - apply (pageSame_invariant w); [|exact Hinv].
    unfold pointerDownEffect_cleanup. destruct (sceneRef w) eqn:Hsc;
      repeat split; reflexivity.
  - exact (pageSame_invariant _ _ (applyRemoteColors_pageSame colors w) Hinv).
  - exact (pageSame_invariant _ _ (snapCameraIfFollowingUser_pageSame remote cam w) Hinv).
  - apply (pageSame_invariant w); [|exact Hinv].
    destruct cam; repeat split; reflexivity.
  - apply (pageSame_invariant w); [|exact Hinv].
    destruct observer as [[c id]|]; repeat split; reflexivity.
  - apply (pageSame_invariant w); [|exact Hinv].
    unfold initialPresentEffect.
    destruct (negb succeeded); [apply pageSame_refl|].
    destruct (negb initiator); [apply pageSame_refl|].
    destruct remote as [state|]; [|apply pageSame_refl].
    destruct (negb (FollowModeType_eqb (type state) local)); [apply pageSame_refl|].
    destruct (hasInitiallyPresentedRef w); repeat split; reflexivity.
  - (* before render *)
    unfold beforeRender.
    destruct (onBeforeRenderObservable (scenes w sc)) as [|[c pos] rest];
      [exact Hinv|].
    unfold runBeforeRenderCallback. rewrite applyRemoteCamera_eq.
    destruct Hinv as [Hsel _]. split; [exact Hsel | reflexivity].
  - (* the user moves the camera *)
    apply (pageSame_invariant
             (set_cameras (update (cameras w) c (Camera_set_position p (cameras w c))) w));
      [apply notifyTimes_pageSame|].
    apply (pageSame_invariant w); [repeat split; reflexivity | exact Hinv].
  - apply (pageSame_invariant w); [repeat split; reflexivity | exact Hinv].
  - apply (pageSame_invariant w); [repeat split; reflexivity | exact Hinv].
Qed.


(** ** Local updates are pushed to the SDK *)







(** The shared map entry is exactly (material name, hex colour). *)
Example picked_colour_is_written :
  liveShare (onChangeColor (selectedMaterialName demo_selected) false "#ff0000" demo_selected)
  = [setMaterialColor "body" "#ff0000"]
  /\ materialObjects
       (onChangeColor (selectedMaterialName demo_selected) false "#ff0000" demo_selected) 0
     = PBRMaterial "body" (FromHexString "#ff0000").
Proof. split; reflexivity. Qed.

(** ** The viewer element: sources and the ready event *)

(** C5.  ModelViewerScene gives the viewer element its modelFileName prop as
    model URL together with an environment URL, and the page renders exactly
    one viewer, with the model URL it passes as modelFileName.  When the
    mounted viewer fires its ready event, the onReadyObservable callback is
    invoked once, with the scene of the event and that scene's active
    camera. *)
Theorem viewer_sources_and_ready :
  (forall modelFileName,
      viewerSources (ModelViewerScene modelFileName)
      = [(modelFileName, "https://assets.babylonjs.com/environments/ulmerMuenster.env")])
  /\ (forall colorsMap sharedColorsMap allUsers remoteCameraState (w : World),
         viewerSources
           (LiveObjectViewer colorsMap sharedColorsMap allUsers remoteCameraState w)
         = [("https://raw.githubusercontent.com/BabylonJS/Assets/master/splats/gs_Skull.splat",
             "https://assets.babylonjs.com/environments/ulmerMuenster.env")])
  /\ (forall (onReady : SceneRef -> option CameraRef -> World -> World)
             abortController detail (w : World),
         let p :=
           dispatchEvent onReady "viewerready" detail
             (ModelViewerScene_effect abortController (rendered w)) in
         world p = onReady (scene detail) (activeCamera (scenes w (scene detail))) w
         /\ effectCamera p = activeCamera (scenes w (scene detail))).
Proof.
  repeat match goal with |- _ /\ _ => split end.
  - reflexivity.
  - intros colorsMap sharedColorsMap allUsers remoteCameraState w.
    unfold viewerSources, LiveObjectViewer. cbv zeta.
    destruct (truthy sharedColorsMap && truthy_string (selectedMaterialName w));
      destruct remoteCameraState as [[[] v f i]|]; reflexivity.
  - intros onReady abortController detail w. split; reflexivity.
Qed.

(** The ready listener is registered with [once]: a second ready event finds
    no listener. *)
Lemma ready_is_reported_once :
  forall (onReady : SceneRef -> option CameraRef -> World -> World)
         abortController detail detail' (w : World),
    let p :=
      dispatchEvent onReady "viewerready" detail
        (ModelViewerScene_effect abortController (rendered w)) in
    dispatchEvent onReady "viewerready" detail' p = p.
Proof. reflexivity. Qed.

(** ** Listeners and their cleanup *)

(** C4 fails for the modelchange listener: it is added without the abort
    signal, so after the effect and its cleanup have run on a freshly
    rendered viewer element the listener is still registered there. *)
Theorem modelchange_listener_outlives_cleanup :
  forall abortController (w : World),
    viewerRef
      (ModelViewerScene_cleanup abortController
         (ModelViewerScene_effect abortController (rendered w)))
    = Some {| listeners :=
                [{| eventType := "modelchange";
                    listener := modelchange_listener;
                    once := false;
                    signal := None |}] |}.
Proof.
  intros abortController w. unfold ModelViewerScene_cleanup, ModelViewerScene_effect.
  simpl. unfold abort, addEventListener, hasSignal. simpl.
  rewrite Nat.eqb_refl. reflexivity.
Qed.

(** The leaked listener still runs after the cleanup: a later modelchange
    event turns the camera's auto rotation off. *)
Example modelchange_runs_after_cleanup :
  let onReady := onReadyObservable None [] None None in
  let ready :=
    dispatchEvent onReady "viewerready" {| scene := 0 |}
      (ModelViewerScene_effect 7 (rendered demo_mounted)) in
  let unmounted := ModelViewerScene_cleanup 7 ready in
  useAutoRotationBehavior (cameras (world unmounted) 0) = true
  /\ useAutoRotationBehavior
       (cameras (world (dispatchEvent onReady "modelchange" {| scene := 0 |} unmounted)) 0)
     = false.
Proof. split; reflexivity. Qed.

(** The other registrations are undone by their cleanups. *)

Lemma abort_removes_signal :
  forall s el l, In l (listeners (abort s el)) -> signal l <> Some s.
Proof.
  intros s el l Hin. unfold abort in Hin. simpl in Hin.
  apply filter_In in Hin. destruct Hin as [_ Hkeep].
  unfold hasSignal in Hkeep. intros Heq. rewrite Heq, Nat.eqb_refl in Hkeep.
  discriminate.
Qed.

Lemma viewerready_listener_removed_by_cleanup :
  forall abortController (p : Page) el,
    viewerRef p = Some el ->
    exists el',
      viewerRef (ModelViewerScene_cleanup abortController
                   (ModelViewerScene_effect abortController p)) = Some el'
      /\ forall l, In l (listeners el') -> signal l <> Some abortController.
Proof.
  intros abortController p el Hel.
  unfold ModelViewerScene_cleanup, ModelViewerScene_effect. rewrite Hel. simpl.
  eexists. split; [reflexivity|].
  intros l Hin. exact (abort_removes_signal _ _ l Hin).
Qed.

Lemma viewMatrix_observer_removed_by_cleanup :
  forall c (w : World) o,
    In o (onViewMatrixChangedObservable
            (cameras (viewMatrixEffect_cleanup (snd (viewMatrixEffect (Some c) w))
                        (fst (viewMatrixEffect (Some c) w))) c)) ->
    observerId o <> nextObserverId (cameras w c).
Proof.
  intros c w o. simpl. unfold update. rewrite !Nat.eqb_refl. simpl.
  intros Hin. apply filter_In in Hin. destruct Hin as [_ Hkeep].
  apply negb_true_iff, Nat.eqb_neq in Hkeep. exact Hkeep.
Qed.

Lemma onPointerDown_reset_by_cleanup :
  forall (w : World) sc,
    sceneRef w = Some sc ->
    onPointerDown (scenes (pointerDownEffect_cleanup w) sc) = None.
Proof.
  intros w sc Hsc. unfold pointerDownEffect_cleanup. rewrite Hsc. simpl.
  unfold update. rewrite Nat.eqb_refl. reflexivity.
Qed.

(** * Further properties of the page *)

(** ** Overlays and the info bar *)

(** X1.  The decorative outline and the live canvas overlay are rendered
    together, exactly in the four active follow modes (following or
    presenting, not while local or suspended, and never without a
    follow-mode state).  The outline is red while presenting and blue while
    following; the overlay gets the followed user's id and the z of the
    state's camera position, or 0 when the state has none. *)
Theorem overlays_only_in_active_follow_modes :
  forall colorsMap sharedColorsMap allUsers (w : World),
    (forall state : IFollowModeState,
        let tree := LiveObjectViewer colorsMap sharedColorsMap allUsers (Some state) w in
        outlines tree
        = match outlineColor (type state) with Some c => [c] | None => [] end
        /\ canvasOverlays tree
           = match outlineColor (type state) with
             | Some _ => [(followingUserId state, zPositionOf state)]
             | None => []
             end)
    /\ outlines (LiveObjectViewer colorsMap sharedColorsMap allUsers None w) = []
    /\ canvasOverlays (LiveObjectViewer colorsMap sharedColorsMap allUsers None w) = [].
Proof.
  intros colorsMap sharedColorsMap allUsers w.
  repeat match goal with |- _ /\ _ => split end.
  - intros [t v f i]. cbv zeta.
    unfold outlines, canvasOverlays, LiveObjectViewer, zPositionOf. cbv zeta.
    destruct (truthy sharedColorsMap && truthy_string (selectedMaterialName w));
      destruct t; split; reflexivity.
  - unfold outlines, LiveObjectViewer. cbv zeta.
    destruct (truthy sharedColorsMap && truthy_string (selectedMaterialName w));
      reflexivity.
  - unfold canvasOverlays, LiveObjectViewer. cbv zeta.
    destruct (truthy sharedColorsMap && truthy_string (selectedMaterialName w));
      reflexivity.
Qed.

(** X2.  The follow-mode info bar is rendered exactly when there is a
    follow-mode state whose type is not local.  It holds the info text and at
    most one small button: STOP (stopPresenting) for activePresenter, STOP
    (stopFollowing) for followUser, FOLLOW (endSuspension) for
    suspendFollowPresenter, RESUME (endSuspension) for suspendFollowUser, and
    no button for activeFollowers and followPresenter. *)
Theorem info_bar_by_follow_mode :
  forall colorsMap sharedColorsMap allUsers (w : World),
    (forall state : IFollowModeState,
        infoBars (LiveObjectViewer colorsMap sharedColorsMap allUsers (Some state) w)
        = if FollowModeType_eqb (type state) local then []
          else [FollowModeInfoText :: infoBarButton (type state)])
    /\ infoBars (LiveObjectViewer colorsMap sharedColorsMap allUsers None w) = [].
Proof.
  intros colorsMap sharedColorsMap allUsers w. split.
  - intros [t v f i]. unfold infoBars, LiveObjectViewer. cbv zeta.
    destruct (truthy sharedColorsMap && truthy_string (selectedMaterialName w));
      destruct t; reflexivity.
  - unfold infoBars, LiveObjectViewer. cbv zeta.
    destruct (truthy sharedColorsMap && truthy_string (selectedMaterialName w));
      reflexivity.
Qed.

(** ** Clicking, then rendering *)

Lemma pickerColors_eq :
  forall colorsMap sharedColorsMap allUsers remoteCameraState (w : World),
    pickerColors (LiveObjectViewer colorsMap sharedColorsMap allUsers remoteCameraState w)
    = match selectedMaterialName w with
      | Some name =>
          if truthy sharedColorsMap && negb (String.eqb name "")
          then [Map_get name colorsMap] else []
      | None => []
      end.
Proof.
  intros colorsMap sharedColorsMap allUsers remoteCameraState w.
  unfold pickerColors, LiveObjectViewer. cbv zeta.
  destruct (selectedMaterialName w) as [name|]; simpl truthy_string.
  - destruct (String.eqb name ""); simpl negb;
      destruct (truthy sharedColorsMap); simpl andb;
      destruct remoteCameraState as [[[] v f i]|]; reflexivity.
  - rewrite andb_false_r.
    destruct remoteCameraState as [[[] v f i]|]; reflexivity.
Qed.

(** X3.  What is on screen after a pointer-down event handled by the
    current handler, in a loaded scene.  If the pick hits a mesh with a
    material, at most one colour picker is shown, and it is shown exactly
    when the shared map exists and the material's name is not empty, with
    the colour the map stores under that name (none if the map has no such
    entry).  If the pick hits a mesh without material the pickers are as
    before.  If the pick hits no mesh, no picker is shown. *)
Theorem picker_after_click :
  forall colorsMap sharedColorsMap allUsers remoteCameraState evt (w : World) sc,
    sceneRef w = Some sc ->
    let render := LiveObjectViewer colorsMap sharedColorsMap allUsers remoteCameraState in
    let w' := handlePointerDown (selectedMaterialName w) evt w in
    match hitMesh (pick (scenes w sc) (clientX evt) (clientY evt)) with
    | Some mesh =>
        match material mesh with
        | Some m =>
            let name := Material_name (materialObjects w m) in
            pickerColors (render w')
            = if truthy sharedColorsMap && negb (String.eqb name "")
              then [Map_get name colorsMap] else []
        | None => pickerColors (render w') = pickerColors (render w)
        end
    | None => pickerColors (render w') = []
    end.
Proof.
  intros colorsMap sharedColorsMap allUsers remoteCameraState evt w sc Hsc.
  cbv zeta.
  destruct (hitMesh (pick (scenes w sc) (clientX evt) (clientY evt)))
    as [mesh|] eqn:Hhit.
  - rewrite (handlePointerDown_hit _ evt w sc mesh Hsc Hhit).
    destruct (material mesh) as [m|]; [|reflexivity].
    rewrite pickerColors_eq. reflexivity.
  - rewrite (handlePointerDown_miss _ evt w sc Hsc Hhit).
    destruct (truthy_string (selectedMaterialName w)) eqn:Hsel;
      rewrite pickerColors_eq; [reflexivity|].
    destruct (selectedMaterialName w) as [name|]; [|reflexivity].
    simpl in Hsel. rewrite Hsel, andb_false_r. reflexivity.
Qed.

Lemma picker_after_click_witness :
  pickerColors
    (LiveObjectViewer [("body", "#00ff00")] (Some 0) [] None
       (handlePointerDown (selectedMaterialName demo_loaded) (click 1) demo_loaded))
  = [Some "#00ff00"]
  /\ pickerColors
       (LiveObjectViewer [("body", "#00ff00")] (Some 0) [] None
          (handlePointerDown (selectedMaterialName demo_selected) (click 5) demo_selected))
     = [].
Proof.
  split.
  - exact (picker_after_click [("body", "#00ff00")] (Some 0) [] None (click 1)
             demo_loaded 0 eq_refl).
  - exact (picker_after_click [("body", "#00ff00")] (Some 0) [] None (click 5)
             demo_selected 0 eq_refl).
Defined.

(** ** The tab *)

Lemma viewerSources_Fragment :
  forall e, viewerSources (Fragment [e]) = viewerSources e.
Proof.
  intros e. unfold viewerSources. cbn [nodes flat_map].
  rewrite app_nil_r. reflexivity.
Qed.

(** X4.  The tab shows the single-user viewer exactly when it runs inside
    Teams and Live Share is not supported there; otherwise it wraps the page
    in a provider that joins on load, with the Teams host inside Teams and
    the test host outside.  The collaborative page, and with it the 3D viewer
    element, is only on screen once the session is joined without a join
    error: before that the provider holds the error text or the spinner. *)
Theorem tab_mounts_viewer_after_join :
  forall IN_TEAMS isLiveShareSupported joined joinError
         colorsMap sharedColorsMap allUsers remoteCameraState (w : World),
    let tab :=
      TabContent IN_TEAMS isLiveShareSupported joined joinError colorsMap
        sharedColorsMap allUsers remoteCameraState w in
    let page := LiveObjectViewer colorsMap sharedColorsMap allUsers remoteCameraState w in
    (tab = SingleUserModelViewer <-> IN_TEAMS = true /\ isLiveShareSupported = false)
    /\ (tab <> SingleUserModelViewer ->
        tab = LiveShareProvider true
                (if IN_TEAMS then LiveShareHost_create else TestLiveShareHost_create)
                [match joinError with
                 | Some e => Text (message e)
                 | None => if joined then Fragment [page] else FlexColumn [Spinner]
                 end])
    /\ flat_map viewerSources (Tab_children tab)
       = if (if IN_TEAMS then isLiveShareSupported else true)
            && joined && negb (truthy joinError)
         then viewerSources page else [].
Proof.
  intros IN_TEAMS isLiveShareSupported joined joinError colorsMap sharedColorsMap
         allUsers remoteCameraState w.
  cbv zeta. unfold TabContent, LiveShareContentWrapper. cbv zeta.
  repeat match goal with |- _ /\ _ => split end.
  - destruct IN_TEAMS, isLiveShareSupported; simpl; split;
      try discriminate; try (intros [? ?]; discriminate); auto.
  - destruct IN_TEAMS, isLiveShareSupported; simpl; intros H;
      try (contradiction H; reflexivity);
      destruct joinError; destruct joined; reflexivity.
  - destruct IN_TEAMS, isLiveShareSupported; cbn [negb Tab_children andb];
      try reflexivity;
      destruct joinError; destruct joined;
      cbn [LoadingErrorWrapper negb flat_map andb truthy]; rewrite ?app_nil_r;
      try reflexivity; apply viewerSources_Fragment.
Qed.

Lemma tab_mounts_viewer_after_join_witness :
  TabContent true true false None [] None [] None demo_mounted
  = LiveShareProvider true LiveShareHost_create [FlexColumn [Spinner]].
Proof.
  apply (proj1 (proj2 (tab_mounts_viewer_after_join true true false None [] None []
                         None demo_mounted))).
  discriminate.
Defined.

(** ** Colours from the shared map *)

Lemma findMaterialByName_name :
  forall (objects : MaterialRef -> Material) name ms m,
    findMaterialByName objects name ms = Some m -> Material_name (objects m) = name.
Proof.
  intros objects name ms m. induction ms as [|m0 rest IH]; simpl; [discriminate|].
  destruct (String.eqb (Material_name (objects m0)) name) eqn:Heq; [|exact IH].
  intros [= <-]. apply String.eqb_eq. exact Heq.
Qed.

Lemma getMaterialByName_sameShape :
  forall scene name w w',
    sameShape w w' -> getMaterialByName scene name w' = getMaterialByName scene name w.
Proof.
  intros scene name w w' (_ & Hs & Hn & _). unfold getMaterialByName.
  rewrite Hs. apply findMaterialByName_names. exact Hn.
Qed.

Lemma recolor_other :
  forall mat value (w : World) m,
    mat <> Some m -> materialObjects (recolor mat value w) m = materialObjects w m.
Proof.
  intros mat value w m Hne. unfold recolor.
  destruct mat as [m0|]; [|reflexivity].
  destruct (instanceof_PBRMaterial (materialObjects w m0)); [|reflexivity].
  simpl. unfold update. destruct (Nat.eqb m m0) eqn:Heq; [|reflexivity].
  apply Nat.eqb_eq in Heq. subst m0. contradiction Hne. reflexivity.
Qed.

Lemma recolor_target :
  forall value (w : World) m,
    instanceof_PBRMaterial (materialObjects w m) = true ->
    materialObjects (recolor (Some m) value w) m
    = PBRMaterial (Material_name (materialObjects w m)) (FromHexString value).
Proof.
  intros value w m Hpbr. unfold recolor. rewrite Hpbr. simpl.
  unfold update. rewrite Nat.eqb_refl.
  destruct (materialObjects w m); [reflexivity | discriminate].
Qed.

Lemma applyRemoteColor_sameShape :
  forall (w : World) entry, sameShape w (applyRemoteColor w entry).
Proof.
  intros w [key value]. simpl.
  destruct (sceneRef w); [apply recolor_sameShape | apply sameShape_refl].
Qed.

Lemma applyRemoteColors_sameShape :
  forall colorsMap (w : World), sameShape w (applyRemoteColors colorsMap w).
Proof.
  unfold applyRemoteColors.
  induction colorsMap as [|entry rest IH]; intros w; simpl; [apply sameShape_refl|].
  eapply sameShape_trans; [apply applyRemoteColor_sameShape | apply IH].
Qed.

(** A material that no entry of the map refers to keeps its object. *)
Lemma applyRemoteColors_other :
  forall colorsMap (w : World) sc m,
    sceneRef w = Some sc ->
    (forall k v, In (k, v) colorsMap -> getMaterialByName sc k w <> Some m) ->
    materialObjects (applyRemoteColors colorsMap w) m = materialObjects w m.
Proof.
  unfold applyRemoteColors.
  induction colorsMap as [|[k0 v0] rest IH]; intros w sc m Hsc Hnone; [reflexivity|].
  cbn [fold_left].
  pose proof (applyRemoteColor_sameShape w (k0, v0)) as Hshape.
  rewrite (IH (applyRemoteColor w (k0, v0)) sc m).
  - rewrite (applyRemoteColor_loaded w k0 v0 sc Hsc).
    apply recolor_other. apply (Hnone k0 v0). left. reflexivity.
  - destruct Hshape as [-> _]. exact Hsc.
  - intros k v Hin. rewrite (getMaterialByName_sameShape sc k w _ Hshape).
    apply (Hnone k v). right. exact Hin.
Qed.

(** An entry that names a PBR material of the scene takes effect, whatever
    the other entries are. *)
Lemma applyRemoteColors_applies :
  forall colorsMap (w : World) sc k v m,
    sceneRef w = Some sc ->
    NoDup (map fst colorsMap) ->
    In (k, v) colorsMap ->
    getMaterialByName sc k w = Some m ->
    instanceof_PBRMaterial (materialObjects w m) = true ->
    materialObjects (applyRemoteColors colorsMap w) m = PBRMaterial k (FromHexString v).
Proof.
  induction colorsMap as [|[k0 v0] rest IH]; intros w sc k v m Hsc Hnodup Hin Hfound Hpbr;
    [contradiction|].
  pose proof (applyRemoteColor_sameShape w (k0, v0)) as Hshape.
  assert (Hsc1 : sceneRef (applyRemoteColor w (k0, v0)) = Some sc)
    by (destruct Hshape as [-> _]; exact Hsc).
  inversion Hnodup as [|k0' ks Hfresh Hrest]; subst.
  unfold applyRemoteColors. cbn [fold_left].
  change (fold_left applyRemoteColor rest ?x) with (applyRemoteColors rest x).
  destruct Hin as [[= -> ->] | Hin].
  - (* this entry; the later ones have other keys *)
    rewrite (applyRemoteColors_other rest _ sc m Hsc1).
    + rewrite (applyRemoteColor_loaded w k v sc Hsc), Hfound, (recolor_target v w m Hpbr).
      unfold getMaterialByName in Hfound.
      rewrite (findMaterialByName_name _ _ _ _ Hfound). reflexivity.
    + intros k' v' Hin' Hsame.
      rewrite (getMaterialByName_sameShape sc k' w _ Hshape) in Hsame.
      unfold getMaterialByName in Hfound, Hsame.
      apply findMaterialByName_name in Hfound. apply findMaterialByName_name in Hsame.
      apply Hfresh. rewrite <- Hfound, Hsame.
      exact (in_map fst rest (k', v') Hin').
  - (* a later entry *)
    apply (IH (applyRemoteColor w (k0, v0)) sc k v m Hsc1 Hrest Hin).
    + rewrite (getMaterialByName_sameShape sc k w _ Hshape). exact Hfound.
    + destruct Hshape as (_ & _ & _ & Hclass). rewrite Hclass. exact Hpbr.
Qed.

(** X5.  After applyRemoteColors in a loaded scene, every entry of the map
    (whose keys are distinct, as in a Map) that names a PBR material of the
    scene has taken effect: the material the scene has under the key is a
    PBRMaterial of that name with the colour parsed from the entry's value,
    whatever the order of the entries. *)
Theorem applyRemoteColors_applies_every_entry :
  forall colorsMap (w : World) sc k v m,
    sceneRef w = Some sc ->
    NoDup (map fst colorsMap) ->
    In (k, v) colorsMap ->
    getMaterialByName sc k w = Some m ->
    instanceof_PBRMaterial (materialObjects w m) = true ->
    materialObjects (applyRemoteColors colorsMap w) m = PBRMaterial k (FromHexString v).
Proof. exact applyRemoteColors_applies. Qed.

Lemma applyRemoteColors_applies_every_entry_witness :
  materialObjects
    (applyRemoteColors [("glass", "#00ff00"); ("body", "#ff0000"); ("wheel", "#0000ff")]
       demo_loaded) 0
  = PBRMaterial "body" (FromHexString "#ff0000").
Proof.
  apply (applyRemoteColors_applies_every_entry _ demo_loaded 0 "body" "#ff0000" 0).
  - reflexivity.
  - repeat constructor; simpl; intuition discriminate.
  - right. left. reflexivity.
  - reflexivity.
  - reflexivity.
Defined.

Lemma recolor_page :
  forall mat value (w : World),
    camera (recolor mat value w) = camera w
    /\ hasInitiallyPresentedRef (recolor mat value w) = hasInitiallyPresentedRef w.
Proof.
  intros mat value w. unfold recolor.
  destruct mat as [m|]; [destruct (instanceof_PBRMaterial (materialObjects w m))|];
    split; reflexivity.
Qed.

Lemma applyRemoteColors_engine :
  forall colorsMap (w : World),
    scenes (applyRemoteColors colorsMap w) = scenes w
    /\ cameras (applyRemoteColors colorsMap w) = cameras w
    /\ camera (applyRemoteColors colorsMap w) = camera w
    /\ hasInitiallyPresentedRef (applyRemoteColors colorsMap w) = hasInitiallyPresentedRef w.
Proof.
  unfold applyRemoteColors.
  induction colorsMap as [|[key value] rest IH]; intros w; [repeat split; reflexivity|].
  cbn [fold_left]. destruct (IH (applyRemoteColor w (key, value))) as (H1 & H2 & H3 & H4).
  rewrite H1, H2, H3, H4. simpl. destruct (sceneRef w) as [sc|];
    [|repeat split; reflexivity].
  destruct (recolor_engine (getMaterialByName sc key w) value w) as (E1 & E2 & _).
  destruct (recolor_page (getMaterialByName sc key w) value w) as (E3 & E4).
  repeat split; assumption.
Qed.

(** X6.  applyRemoteColors touches nothing but the colours of materials the
    map names: the scenes, the cameras, the page's refs and state and the
    SDK calls are as before, every material keeps its name and its class, and
    a material that no key of the map refers to keeps its object. *)
Theorem applyRemoteColors_only_recolours :
  forall colorsMap (w : World),
    let w' := applyRemoteColors colorsMap w in
    (scenes w' = scenes w /\ cameras w' = cameras w /\ sceneRef w' = sceneRef w
     /\ camera w' = camera w /\ selectedMaterialName w' = selectedMaterialName w
     /\ isApplyingRemoteCameraUpdate w' = isApplyingRemoteCameraUpdate w
     /\ hasInitiallyPresentedRef w' = hasInitiallyPresentedRef w
     /\ liveShare w' = liveShare w)
    /\ (forall m,
           Material_name (materialObjects w' m) = Material_name (materialObjects w m)
           /\ instanceof_PBRMaterial (materialObjects w' m)
              = instanceof_PBRMaterial (materialObjects w m))
    /\ (forall sc m,
           sceneRef w = Some sc ->
           (forall k v, In (k, v) colorsMap -> getMaterialByName sc k w <> Some m) ->
           materialObjects w' m = materialObjects w m).
Proof.
  intros colorsMap w. cbv zeta.
  destruct (applyRemoteColors_engine colorsMap w) as (H1 & H2 & H3 & H4).
  destruct (applyRemoteColors_pageSame colorsMap w) as (P1 & P2 & P3).
  destruct (applyRemoteColors_sameShape colorsMap w) as (_ & _ & Hn & Hc).
  split; [|split].
  - repeat split; try assumption. apply applyRemoteColors_liveShare.
  - intros m. split; [apply Hn | apply Hc].
  - intros sc m Hsc Hnone. exact (applyRemoteColors_other colorsMap w sc m Hsc Hnone).
Qed.

Lemma applyRemoteColors_only_recolours_witness :
  materialObjects (applyRemoteColors [("body", "#ff0000")] demo_loaded) 1
  = materialObjects demo_loaded 1.
Proof.
  apply (proj2 (proj2 (applyRemoteColors_only_recolours [("body", "#ff0000")] demo_loaded))
           0 1 eq_refl).
  intros k v [[= <- <-] | []]. discriminate.
Defined.

(** X7.  The local recolouring done by onChangeColor is the one the entry
    it writes would cause when it comes back through the shared map: for a
    non-empty selection in a loaded scene the materials after onChangeColor
    are those after applyRemoteColors on the single entry (name, value).  When
    the SDK call raises, no material is recoloured. *)
Theorem local_recolour_agrees_with_remote :
  forall name value (w : World) sc,
    name <> "" ->
    sceneRef w = Some sc ->
    materialObjects (onChangeColor (Some name) false value w)
    = materialObjects (applyRemoteColors [(name, value)] w)
    /\ materialObjects (onChangeColor (Some name) true value w) = materialObjects w.
Proof.
  intros name value w sc Hname Hsc.
  unfold onChangeColor, applyRemoteColors. simpl truthy_string.
  apply String.eqb_neq in Hname. rewrite Hname. simpl negb. cbv iota.
  rewrite Hsc. cbn [fold_left applyRemoteColor]. rewrite Hsc.
  split; [|reflexivity].
  unfold recolor, getMaterialByName. cbn [materialObjects scenes call set_liveShare].
  destruct (findMaterialByName (materialObjects w) name (materials (scenes w sc)))
    as [m|]; [|reflexivity].
  destruct (instanceof_PBRMaterial (materialObjects w m)); reflexivity.
Qed.

Lemma local_recolour_agrees_with_remote_witness :
  materialObjects (onChangeColor (Some "body") false "#ff0000" demo_selected)
  = materialObjects (applyRemoteColors [("body", "#ff0000")] demo_selected)
  /\ materialObjects (onChangeColor (Some "body") true "#ff0000" demo_selected)
     = materialObjects demo_selected.
Proof.
  apply (local_recolour_agrees_with_remote "body" "#ff0000" demo_selected 0).
  - discriminate.
  - reflexivity.
Defined.

(** ** Queueing a remote camera update *)

Lemma update_same :
  forall (A : Type) (store : nat -> A) r a, update store r a r = a.
Proof. intros A store r a. unfold update. rewrite Nat.eqb_refl. reflexivity. Qed.

Lemma snap_queues :
  forall state p c sc (w : World),
    sceneRef w = Some sc ->
    ICustomFollowData.cameraPosition (value state) = Some p ->
    isLocalValue state = false ->
    snapCameraIfFollowingUser (Some state) (Some c) w
    = addOnce sc
        (applyRemoteCamera_closure c
           (Vector3.New (ICustomFollowData.x p) (ICustomFollowData.y p)
              (ICustomFollowData.z p))) w.
Proof.
  intros state p c sc w Hsc Hpos Hlocal. unfold snapCameraIfFollowingUser.
  rewrite Hpos, Hlocal, Hsc. reflexivity.
Qed.

Lemma snap_then_render :
  forall state p c sc fires (w : World),
    sceneRef w = Some sc ->
    ICustomFollowData.cameraPosition (value state) = Some p ->
    isLocalValue state = false ->
    onBeforeRenderObservable (scenes w sc) = [] ->
    let target :=
      Vector3.New (ICustomFollowData.x p) (ICustomFollowData.y p)
        (ICustomFollowData.z p) in
    let queued := snapCameraIfFollowingUser (Some state) (Some c) w in
    let w' := beforeRender sc fires queued in
    onBeforeRenderObservable (scenes queued sc) = [applyRemoteCamera_closure c target]
    /\ onBeforeRenderObservable (scenes w' sc) = []
    /\ liveShare w' = liveShare w
    /\ isApplyingRemoteCameraUpdate w' = false.
Proof.
  intros state p c sc fires w Hsc Hpos Hlocal Hempty. cbv zeta.
  rewrite (snap_queues state p c sc w Hsc Hpos Hlocal).
  unfold beforeRender, addOnce. cbn [scenes set_scenes]. rewrite !update_same.
  cbn [onBeforeRenderObservable Scene_set_onBeforeRenderObservable].
  rewrite Hempty. cbn [app]. split; [reflexivity|].
  unfold runBeforeRenderCallback. rewrite applyRemoteCamera_eq.
  cbn. rewrite !update_same. cbn. repeat split; reflexivity.
Qed.

(** X8.  Queueing a remote camera update.  Take a loaded scene with nothing
    queued, a snap callback that was created with a camera (its captured
    camera is not null), and a follow-mode state that carries a camera
    position and is not the local user's own value.  Then
    snapCameraIfFollowingUser queues exactly one before-render callback,
    which holds that camera and the vector made of the x, y and z of the
    remote position; and once the engine has run it, the queue is empty
    again, no call has gone to the SDK, and the flag is clear.  Where the
    engine then puts the camera is the engine's business and is not
    stated. *)
Theorem snap_queues_one_camera_update :
  forall state p c sc fires (w : World),
    sceneRef w = Some sc ->
    ICustomFollowData.cameraPosition (value state) = Some p ->
    isLocalValue state = false ->
    onBeforeRenderObservable (scenes w sc) = [] ->
    let queued := snapCameraIfFollowingUser (Some state) (Some c) w in
    let w' := beforeRender sc fires queued in
    onBeforeRenderObservable (scenes queued sc)
    = [applyRemoteCamera_closure c
         (Vector3.New (ICustomFollowData.x p) (ICustomFollowData.y p)
            (ICustomFollowData.z p))]
    /\ onBeforeRenderObservable (scenes w' sc) = []
    /\ liveShare w' = liveShare w
    /\ isApplyingRemoteCameraUpdate w' = false.
Proof.
  intros state p c sc fires w Hsc Hpos Hlocal Hempty. cbv zeta.
  exact (snap_then_render state p c sc fires w Hsc Hpos Hlocal Hempty).
Qed.

Lemma snap_queues_one_camera_update_witness :
  onBeforeRenderObservable (scenes demo_queued 0)
  = [applyRemoteCamera_closure 0 (Vector3.New (num 7) (num 8) (num 9))]
  /\ onBeforeRenderObservable (scenes (beforeRender 0 demo_fires demo_queued) 0) = []
  /\ liveShare (beforeRender 0 demo_fires demo_queued) = liveShare demo_observed
  /\ isApplyingRemoteCameraUpdate (beforeRender 0 demo_fires demo_queued) = false.
Proof.
  exact (snap_queues_one_camera_update demo_remote
           {| ICustomFollowData.x := num 7; ICustomFollowData.y := num 8;
              ICustomFollowData.z := num 9 |}
           0 0 demo_fires demo_observed eq_refl eq_refl eq_refl eq_refl).
Defined.

(** X9.  A camera position survives being packed into the follow data and
    unpacked again.  Suppose the follow-mode state a follower receives is
    not its own value and carries exactly the data that sendCameraPos pushed
    for the presenter's camera; the follower's scene is loaded with nothing
    queued, and its snap callback was created with a camera (the captured
    camera is not null).  Then the one before-render callback that
    snapCameraIfFollowingUser queues holds that camera and, as the vector it
    will hand to setPosition, exactly the position sendCameraPos read from
    the presenter's camera.  What the engine makes of that vector is not
    stated. *)
Theorem camera_position_payload_round_trip :
  forall (presenter follower : World) cp cf sc state,
    liveShare (sendCameraPos (Some cp) presenter)
    = liveShare presenter ++ [updateUserCameraState (value state)] ->
    isLocalValue state = false ->
    sceneRef follower = Some sc ->
    onBeforeRenderObservable (scenes follower sc) = [] ->
    onBeforeRenderObservable
      (scenes (snapCameraIfFollowingUser (Some state) (Some cf) follower) sc)
    = [applyRemoteCamera_closure cf (position (cameras presenter cp))].
Proof.
  intros presenter follower cp cf sc state Hsent Hlocal Hsc Hempty.
  unfold sendCameraPos in Hsent. cbn [liveShare call set_liveShare] in Hsent.
  apply app_inv_head in Hsent. injection Hsent as Hvalue.
  assert (Hpos : ICustomFollowData.cameraPosition (value state)
                 = Some {| ICustomFollowData.x := Vector3.x (position (cameras presenter cp));
                           ICustomFollowData.y := Vector3.y (position (cameras presenter cp));
                           ICustomFollowData.z := Vector3.z (position (cameras presenter cp)) |})
    by (rewrite <- Hvalue; reflexivity).
  rewrite (snap_queues state _ cf sc follower Hsc Hpos Hlocal).
  unfold addOnce. cbn [scenes set_scenes]. rewrite update_same.
  cbn [onBeforeRenderObservable Scene_set_onBeforeRenderObservable].
  rewrite Hempty. cbn. destruct (position (cameras presenter cp)). reflexivity.
Qed.

Lemma camera_position_payload_round_trip_witness :
  onBeforeRenderObservable
    (scenes (snapCameraIfFollowingUser
               (Some {| type := followPresenter;
                        value := cameraData (position (cameras demo_selected 0));
                        followingUserId := "presenter";
                        isLocalValue := false |})
               (Some 0) demo_loaded) 0)
  = [applyRemoteCamera_closure 0 (position (cameras demo_selected 0))].
Proof.
  apply (camera_position_payload_round_trip demo_selected demo_loaded 0 0 0
           {| type := followPresenter;
              value := cameraData (position (cameras demo_selected 0));
              followingUserId := "presenter";
              isLocalValue := false |});
    reflexivity.
Defined.

Lemma notifyTimes_no_observers :
  forall n c (w : World),
    onViewMatrixChangedObservable (cameras w c) = [] -> notifyTimes n c w = w.
Proof.
  induction n as [|n IH]; intros c w Hnone; simpl; [reflexivity|].
  unfold notifyViewMatrixChanged. rewrite Hnone. simpl. apply IH. exact Hnone.
Qed.

(** X10.  The cleanup of the camera effect silences the page: on a camera
    that had no observers, after the effect has registered the view-matrix
    callback and its cleanup has run, the camera has no observers again and
    moving it, however often the engine reports the change, sends nothing to
    the SDK. *)
Theorem camera_effect_cleanup_silences :
  forall c p n (w : World),
    onViewMatrixChangedObservable (cameras w c) = [] ->
    let effect := viewMatrixEffect (Some c) w in
    let w' := viewMatrixEffect_cleanup (snd effect) (fst effect) in
    onViewMatrixChangedObservable (cameras w' c) = []
    /\ liveShare (Camera_setPosition n c p w') = liveShare w.
Proof.
  intros c p n w Hnone. cbv zeta.
  assert (Hclean :
            onViewMatrixChangedObservable
              (cameras (viewMatrixEffect_cleanup (snd (viewMatrixEffect (Some c) w))
                          (fst (viewMatrixEffect (Some c) w))) c) = []).
  { cbn. rewrite !update_same. cbn. rewrite Hnone. cbn.
    rewrite Nat.eqb_refl. reflexivity. }
  split; [exact Hclean|].
  unfold Camera_setPosition. rewrite notifyTimes_no_observers.
  - reflexivity.
  - cbn [cameras set_cameras]. rewrite update_same. exact Hclean.
Qed.

Lemma camera_effect_cleanup_silences_witness :
  liveShare
    (Camera_setPosition 3 0 (Vector3.New (num 4) (num 5) (num 6))
       (viewMatrixEffect_cleanup (snd (viewMatrixEffect (Some 0) demo_loaded))
          (fst (viewMatrixEffect (Some 0) demo_loaded))))
  = liveShare demo_loaded.
Proof.
  exact (proj2 (camera_effect_cleanup_silences 0 (Vector3.New (num 4) (num 5) (num 6)) 3
                  demo_loaded eq_refl)).
Defined.

(** ** Registering the pointer handler *)

(** X11.  Pointer events go to the handler the effect registered last.  In
    a loaded scene: after the pointer-down effect, an event on the scene runs
    handlePointerDown with the selection that effect captured; after the
    cleanup an event changes nothing; and when the effect runs again after a
    cleanup, only the new closure runs. *)
Theorem pointer_events_follow_the_effect :
  forall sel sel' evt (w : World) sc,
    sceneRef w = Some sc ->
    pointerDown sc evt (pointerDownEffect sel w)
    = handlePointerDown sel evt (pointerDownEffect sel w)
    /\ pointerDown sc evt (pointerDownEffect_cleanup (pointerDownEffect sel w))
       = pointerDownEffect_cleanup (pointerDownEffect sel w)
    /\ pointerDown sc evt
         (pointerDownEffect sel' (pointerDownEffect_cleanup (pointerDownEffect sel w)))
       = handlePointerDown sel' evt
           (pointerDownEffect sel' (pointerDownEffect_cleanup (pointerDownEffect sel w))).
Proof.
  intros sel sel' evt w sc Hsc.
  unfold pointerDownEffect, pointerDownEffect_cleanup. rewrite Hsc.
  cbn [sceneRef assign_onPointerDown set_scenes scenes].
  rewrite Hsc. cbn [sceneRef assign_onPointerDown set_scenes scenes]. rewrite Hsc.
  unfold pointerDown. cbn [scenes assign_onPointerDown set_scenes].
  rewrite !update_same. cbn [onPointerDown Scene_set_onPointerDown].
  repeat split; reflexivity.
Qed.

Lemma pointer_events_follow_the_effect_witness :
  pointerDown 0 (click 1) (pointerDownEffect_cleanup (pointerDownEffect None demo_loaded))
  = pointerDownEffect_cleanup (pointerDownEffect None demo_loaded).
Proof.
  exact (proj1 (proj2 (pointer_events_follow_the_effect None None (click 1)
                         demo_loaded 0 eq_refl))).
Defined.

(** ** The viewer element's listeners *)

Lemma filter_none :
  forall (A : Type) (f : A -> bool) (l : list A),
    (forall x, In x l -> f x = false) -> filter f l = [].
Proof.
  intros A f l. induction l as [|a rest IH]; intros H; simpl; [reflexivity|].
  rewrite (H a (or_introl eq_refl)). apply IH. intros x Hx. apply H. right. exact Hx.
Qed.

Lemma listensTo_false :
  forall type el l,
    listensTo type el = false -> In l (listeners el) -> String.eqb (eventType l) type = false.
Proof.
  intros type el l Hnone Hin. unfold listensTo in Hnone.
  destruct (String.eqb (eventType l) type) eqn:Heq; [|reflexivity].
  assert (Hex : existsb (fun l0 => String.eqb (eventType l0) type) (listeners el) = true)
    by (apply existsb_exists; exists l; auto).
  congruence.
Qed.

(** X12.  After the unmount a late ready event is dropped: on an element
    that had no ready listener before the mount, once the effect and its
    cleanup have run, a viewerready event does not invoke onReadyObservable
    and leaves the page and the effect's camera variable as they were. *)
Theorem late_ready_is_dropped :
  forall (onReady : SceneRef -> option CameraRef -> World -> World)
         abortController detail (p : Page) el,
    viewerRef p = Some el ->
    listensTo "viewerready" el = false ->
    let late :=
      dispatchEvent onReady "viewerready" detail
        (ModelViewerScene_cleanup abortController
           (ModelViewerScene_effect abortController p)) in
    world late = world p /\ effectCamera late = None.
Proof.
  intros onReady abortController detail p el Hel Hnone. cbv zeta.
  unfold ModelViewerScene_cleanup, ModelViewerScene_effect, dispatchEvent.
  rewrite Hel. cbn [viewerRef world effectCamera].
  rewrite (filter_none _ (fun l => String.eqb (eventType l) "viewerready")).
  - split; reflexivity.
  - intros l Hin. unfold abort, addEventListener in Hin. cbn [listeners] in Hin.
    apply filter_In in Hin. destruct Hin as [Hin Hkept].
    rewrite <- app_assoc in Hin. apply in_app_or in Hin.
    destruct Hin as [Hin | [<- | [<- | []]]].
    + exact (listensTo_false "viewerready" el l Hnone Hin).
    + unfold hasSignal in Hkept. cbn in Hkept. rewrite Nat.eqb_refl in Hkept.
      discriminate.
    + reflexivity.
Qed.

Lemma late_ready_is_dropped_witness :
  world (dispatchEvent (onReadyObservable None [] None None) "viewerready" {| scene := 0 |}
           (ModelViewerScene_cleanup 7 (ModelViewerScene_effect 7 (rendered demo_mounted))))
  = demo_mounted.
Proof.
  exact (proj1 (late_ready_is_dropped (onReadyObservable None [] None None) 7
                  {| scene := 0 |} (rendered demo_mounted) {| listeners := [] |}
                  eq_refl eq_refl)).
Defined.

(** X13.  What the model-change listener does on a freshly mounted viewer.
    Before the ready event it does nothing.  After the ready event it turns
    auto rotation off on the camera the ready event found active in the
    scene, and changes nothing else of that camera, no other camera and
    nothing else of the page; if the scene had no active camera it does
    nothing. *)
Theorem modelchange_stops_auto_rotation :
  forall (onReady : SceneRef -> option CameraRef -> World -> World)
         abortController detail detail' (w : World),
    let fresh := ModelViewerScene_effect abortController (rendered w) in
    let ready := dispatchEvent onReady "viewerready" detail fresh in
    let changed := dispatchEvent onReady "modelchange" detail' ready in
    dispatchEvent onReady "modelchange" detail' fresh = fresh
    /\ match activeCamera (scenes w (scene detail)) with
       | Some c =>
           world changed
           = set_cameras
               (update (cameras (world ready)) c
                  (Camera_set_useAutoRotationBehavior false (cameras (world ready) c)))
               (world ready)
           /\ useAutoRotationBehavior (cameras (world changed) c) = false
           /\ position (cameras (world changed) c) = position (cameras (world ready) c)
           /\ onViewMatrixChangedObservable (cameras (world changed) c)
              = onViewMatrixChangedObservable (cameras (world ready) c)
           /\ (forall c', c' <> c ->
                 cameras (world changed) c' = cameras (world ready) c')
       | None => changed = ready
       end.
Proof.
  intros onReady abortController detail detail' w. cbv zeta. split; [reflexivity|].
  destruct (activeCamera (scenes w (scene detail))) as [c|] eqn:Hcam.
  - unfold dispatchEvent, ModelViewerScene_effect, rendered, addEventListener.
    cbn. rewrite Hcam. cbn. rewrite !update_same. cbn.
    repeat split; try reflexivity.
    intros c' Hne. unfold update. apply Nat.eqb_neq in Hne. rewrite Hne. reflexivity.
  - unfold dispatchEvent, ModelViewerScene_effect, rendered, addEventListener.
    cbn. rewrite Hcam. reflexivity.
Qed.

Lemma remount_keeps_leaking :
  forall signals (p : Page) n,
    viewerRef p = Some {| listeners := repeat modelchange_registration n |} ->
    viewerRef (fold_left remount signals p)
    = Some {| listeners := repeat modelchange_registration (n + length signals) |}
    /\ world (fold_left remount signals p) = world p.
Proof.
  induction signals as [|s rest IH]; intros p n Hp.
  - simpl. rewrite Nat.add_0_r. auto.
  - cbn [fold_left length].
    assert (Hnext : viewerRef (remount p s)
                    = Some {| listeners := repeat modelchange_registration (S n) |}).
    { unfold remount, ModelViewerScene_cleanup, ModelViewerScene_effect.
      rewrite Hp. cbn [viewerRef]. f_equal. unfold abort, addEventListener.
      cbn [listeners]. f_equal. rewrite <- app_assoc, filter_app.
      cbn [app filter hasSignal signal negb]. rewrite Nat.eqb_refl. cbn [negb].
      rewrite forallb_filter_id.
      - rewrite <- repeat_cons. reflexivity.
      - apply forallb_forall. intros x Hx. apply repeat_spec in Hx. subst x. reflexivity. }
    destruct (IH (remount p s) (S n) Hnext) as [Hv Hw].
    rewrite Hv, Hw, Nat.add_succ_r. split; [reflexivity|].
    unfold remount, ModelViewerScene_cleanup, ModelViewerScene_effect.
    rewrite Hp. reflexivity.
Qed.

(** X14.  Every mount and unmount of ModelViewerScene on the same element
    leaves one more model-change listener behind and nothing else: after any
    number of such cycles on a freshly rendered element, whatever their abort
    controllers, the element holds exactly that many model-change listeners
    and no ready listener, and the page is as it was. *)
Theorem remount_leaves_one_listener_each :
  forall signals (w : World),
    viewerRef (fold_left remount signals (rendered w))
    = Some {| listeners := repeat modelchange_registration (length signals) |}
    /\ world (fold_left remount signals (rendered w)) = w.
Proof.
  intros signals w. exact (remount_keeps_leaking signals (rendered w) 0 eq_refl).
Qed.

(** ** What the page sends, and what it keeps *)

Lemma onCameraViewMatrixChanged_calls :
  forall cam (w : World),
    exists extra,
      liveShare (onCameraViewMatrixChanged cam w) = liveShare w ++ extra
      /\ forallb wellFormedCall extra = true.
Proof.
  intros cam w. unfold onCameraViewMatrixChanged, sendCameraPos.
  destruct (negb (isApplyingRemoteCameraUpdate w)).
  - destruct cam as [c|].
    + eexists [_; _]. cbn. rewrite <- app_assoc. split; reflexivity.
    + exists [beginSuspension]. split; reflexivity.
  - exists []. rewrite app_nil_r. split; reflexivity.
Qed.

Lemma runViewMatrixCallbacks_calls :
  forall observers (w : World),
    exists extra,
      liveShare (fold_left runViewMatrixCallback observers w) = liveShare w ++ extra
      /\ forallb wellFormedCall extra = true.
Proof.
  induction observers as [|o rest IH]; intros w; cbn [fold_left].
  - exists []. rewrite app_nil_r. split; reflexivity.
  - destruct (IH (runViewMatrixCallback w o)) as (e2 & H2 & F2).
    unfold runViewMatrixCallback in H2 at 2. destruct (callback o) as [cam] eqn:Hcb.
    destruct (onCameraViewMatrixChanged_calls cam w) as (e1 & H1 & F1).
    exists (e1 ++ e2). split.
    + unfold runViewMatrixCallback at 2 in H2. unfold runViewMatrixCallback at 2.
      rewrite Hcb in *. rewrite H2, H1, app_assoc. reflexivity.
    + rewrite forallb_app, F1, F2. reflexivity.
Qed.

Lemma notifyTimes_calls :
  forall n c (w : World),
    exists extra,
      liveShare (notifyTimes n c w) = liveShare w ++ extra
      /\ forallb wellFormedCall extra = true.
Proof.
  induction n as [|n IH]; intros c w; cbn [notifyTimes].
  - exists []. rewrite app_nil_r. split; reflexivity.
  - destruct (IH c (notifyViewMatrixChanged c w)) as (e2 & H2 & F2).
    destruct (runViewMatrixCallbacks_calls
                (onViewMatrixChangedObservable (cameras w c)) w) as (e1 & H1 & F1).
    exists (e1 ++ e2). split.
    + rewrite H2. unfold notifyViewMatrixChanged. rewrite H1, app_assoc. reflexivity.
    + rewrite forallb_app, F1, F2. reflexivity.
Qed.

(** X15.  Whatever happens to the page, the calls it adds to those already
    made to the SDK carry complete payloads: an entry written to the shared
    map never has an empty key, and a user state that is pushed always holds
    a camera position (never the empty object the follow mode starts with). *)
Theorem sdk_calls_are_well_formed :
  forall (w w' : World),
    step w w' ->
    exists extra,
      liveShare w' = liveShare w ++ extra /\ forallb wellFormedCall extra = true.
Proof.
  intros w w' Hstep.
  destruct Hstep
    as [sel colors remote cam0 sc cam w | sc evt w | sel throws value w | sel w | w
       | colors w | remote cam w | cam w | observer w | succeeded initiator remote w
       | sc fires w | c p w | c w Hc | userId w].
  - exists []. split; [|reflexivity]. rewrite app_nil_r.
    unfold onReadyObservable, setCamera. simpl.
    rewrite snapCameraIfFollowingUser_liveShare, applyRemoteColors_liveShare.
    reflexivity.
  - exists []. split; [|reflexivity]. rewrite app_nil_r.
    unfold pointerDown. destruct (onPointerDown (scenes w sc)) as [[sel]|];
      [apply handlePointerDown_liveShare | reflexivity].
  - unfold onChangeColor.
    destruct sel as [name|]; simpl truthy_string;
      [|exists []; rewrite app_nil_r; split; reflexivity].
    destruct (String.eqb name "") eqn:Hname; simpl negb; cbv iota;
      [exists []; rewrite app_nil_r; split; reflexivity|].
    destruct (sceneRef w) as [scene|];
      [|exists []; rewrite app_nil_r; split; reflexivity].
    exists [setMaterialColor name value]. split; [|simpl; rewrite Hname; reflexivity].
    destruct throws; [reflexivity|].
    destruct (recolor_engine (getMaterialByName scene name
                                (call (setMaterialColor name value) w)) value
                (call (setMaterialColor name value) w)) as (_ & _ & _ & _ & _ & _ & Hlog).
    rewrite Hlog. reflexivity.
  - exists []. split; [|reflexivity]. rewrite app_nil_r.
    unfold pointerDownEffect. destruct (sceneRef w); reflexivity.
  - exists []. split; [|reflexivity]. rewrite app_nil_r.
    unfold pointerDownEffect_cleanup. destruct (sceneRef w); reflexivity.
  - exists []. split; [|reflexivity]. rewrite app_nil_r.
    apply applyRemoteColors_liveShare.
  - exists []. split; [|reflexivity]. rewrite app_nil_r.
    apply snapCameraIfFollowingUser_liveShare.
  - exists []. split; [|reflexivity]. rewrite app_nil_r.
    destruct cam; reflexivity.
  - exists []. split; [|reflexivity]. rewrite app_nil_r.
    destruct observer as [[c id]|]; reflexivity.
  - unfold initialPresentEffect.
    destruct (negb succeeded);
      [exists []; rewrite app_nil_r; split; reflexivity|].
    destruct (negb initiator);
      [exists []; rewrite app_nil_r; split; reflexivity|].
    destruct remote as [state|];
      [|exists []; rewrite app_nil_r; split; reflexivity].
    destruct (negb (FollowModeType_eqb (type state) local));
      [exists []; rewrite app_nil_r; split; reflexivity|].
    destruct (hasInitiallyPresentedRef w);
      [exists []; rewrite app_nil_r; split; reflexivity|].
    exists [startPresenting]. split; reflexivity.
  - exists []. split; [|reflexivity]. rewrite app_nil_r.
    apply beforeRender_liveShare.
  - unfold Camera_setPosition.
    destruct (notifyTimes_calls 1 c
                (set_cameras (update (cameras w) c (Camera_set_position p (cameras w c))) w))
      as (extra & H & F).
    exists extra. split; [exact H | exact F].
  - exists [c]. split; [reflexivity|].
    simpl in Hc. destruct Hc as [<- | [<- | [<- | [<- | []]]]]; reflexivity.
  - exists [followUser_call userId]. split; reflexivity.
Qed.

Lemma sdk_calls_are_well_formed_witness :
  exists extra,
    liveShare (onChangeColor (Some "body") false "#ff0000" demo_selected)
    = liveShare demo_selected ++ extra
    /\ forallb wellFormedCall extra = true.
Proof.
  exact (sdk_calls_are_well_formed demo_selected _
           (step_changeColor (Some "body") false "#ff0000" demo_selected)).
Defined.

Lemma snapCameraIfFollowingUser_presented :
  forall remote cam (w : World),
    hasInitiallyPresentedRef (snapCameraIfFollowingUser remote cam w)
    = hasInitiallyPresentedRef w.
Proof.
  intros remote cam w. unfold snapCameraIfFollowingUser.
  destruct remote as [state|]; [|reflexivity].
  destruct (ICustomFollowData.cameraPosition (value state)); [|reflexivity].
  destruct (isLocalValue state); [reflexivity|].
  destruct cam; [|reflexivity].
  destruct (sceneRef w); reflexivity.
Qed.

Lemma runViewMatrixCallbacks_presented :
  forall observers (w : World),
    hasInitiallyPresentedRef (fold_left runViewMatrixCallback observers w)
    = hasInitiallyPresentedRef w.
Proof.
  induction observers as [|o rest IH]; intros w; cbn [fold_left]; [reflexivity|].
  rewrite IH. unfold runViewMatrixCallback. destruct (callback o) as [cam].
  unfold onCameraViewMatrixChanged, sendCameraPos.
  destruct (negb (isApplyingRemoteCameraUpdate w)); [|reflexivity].
  destruct cam; reflexivity.
Qed.

Lemma notifyTimes_presented :
  forall n c (w : World),
    hasInitiallyPresentedRef (notifyTimes n c w) = hasInitiallyPresentedRef w.
Proof.
  induction n as [|n IH]; intros c w; cbn [notifyTimes]; [reflexivity|].
  rewrite IH. apply runViewMatrixCallbacks_presented.
Qed.

Lemma step_presented :
  forall (w w' : World),
    step w w' ->
    hasInitiallyPresentedRef w = true -> hasInitiallyPresentedRef w' = true.
Proof.
  intros w w' Hstep Hp.
  destruct Hstep
    as [sel colors remote cam0 sc cam w | sc evt w | sel throws value w | sel w | w
       | colors w | remote cam w | cam w | observer w | succeeded initiator remote w
       | sc fires w | c p w | c w Hc | userId w].
  - unfold onReadyObservable, setCamera. cbn [hasInitiallyPresentedRef set_camera].
    rewrite snapCameraIfFollowingUser_presented.
    destruct (applyRemoteColors_engine colors
                (assign_onPointerDown sc (Some (handlePointerDown_closure sel))
                   (set_sceneRef (Some sc) w))) as (_ & _ & _ & H).
    rewrite H. exact Hp.
  - unfold pointerDown. destruct (onPointerDown (scenes w sc)) as [[sel]|]; [|exact Hp].
    unfold handlePointerDown. destruct (sceneRef w); [|exact Hp].
    destruct (hitMesh _) as [mesh|].
    + destruct (material mesh); exact Hp.
    + destruct (negb (truthy_string sel)); exact Hp.
  - unfold onChangeColor.
    destruct (negb (truthy_string sel)); [exact Hp|].
    destruct sel as [name|]; [|exact Hp].
    destruct (sceneRef w) as [scene|]; [|exact Hp].
    destruct throws; [exact Hp|].
    destruct (recolor_page (getMaterialByName scene name
                              (call (setMaterialColor name value) w)) value
                (call (setMaterialColor name value) w)) as (_ & H).
    rewrite H. exact Hp.
  - unfold pointerDownEffect. destruct (sceneRef w); exact Hp.
  - unfold pointerDownEffect_cleanup. destruct (sceneRef w); exact Hp.
  - destruct (applyRemoteColors_engine colors w) as (_ & _ & _ & H). rewrite H. exact Hp.
  - rewrite snapCameraIfFollowingUser_presented. exact Hp.
  - destruct cam; exact Hp.
  - destruct observer as [[c id]|]; exact Hp.
  - unfold initialPresentEffect.
    destruct (negb succeeded); [exact Hp|].
    destruct (negb initiator); [exact Hp|].
    destruct remote as [state|]; [|exact Hp].
    destruct (negb (FollowModeType_eqb (type state) local)); [exact Hp|].
    rewrite Hp. exact Hp.
  - unfold beforeRender.
    destruct (onBeforeRenderObservable (scenes w sc)) as [|[c pos] rest]; [exact Hp|].
    unfold runBeforeRenderCallback. rewrite applyRemoteCamera_eq. exact Hp.
  - unfold Camera_setPosition. rewrite notifyTimes_presented. exact Hp.
  - exact Hp.
  - exact Hp.
Qed.

Lemma step_scene_loaded :
  forall (w w' : World), step w w' -> sceneRef w <> None -> sceneRef w' <> None.
Proof.
  intros w w' Hstep Hsc.
  destruct Hstep
    as [sel colors remote cam0 sc cam w | sc evt w | sel throws value w | sel w | w
       | colors w | remote cam w | cam w | observer w | succeeded initiator remote w
       | sc fires w | c p w | c w Hc | userId w].
  - unfold onReadyObservable, setCamera. cbn [sceneRef set_camera].
    destruct (snapCameraIfFollowingUser_pageSame remote cam0
                (applyRemoteColors colors
                   (assign_onPointerDown sc (Some (handlePointerDown_closure sel))
                      (set_sceneRef (Some sc) w)))) as (-> & _).
    destruct (applyRemoteColors_pageSame colors
                (assign_onPointerDown sc (Some (handlePointerDown_closure sel))
                   (set_sceneRef (Some sc) w))) as (-> & _).
    discriminate.
  - unfold pointerDown. destruct (onPointerDown (scenes w sc)) as [[sel]|]; [|exact Hsc].
    unfold handlePointerDown.
    destruct (sceneRef w) eqn:E; [|contradiction Hsc; reflexivity].
    destruct (hitMesh _) as [mesh|].
    + destruct (material mesh); simpl; rewrite ?E; discriminate.
    + destruct (negb (truthy_string sel)); simpl; rewrite ?E; discriminate.
  - destruct (onChangeColor_pageSame sel throws value w) as (-> & _). exact Hsc.
  - unfold pointerDownEffect.
    destruct (sceneRef w) eqn:E; [|contradiction Hsc; reflexivity].
    simpl. rewrite E. discriminate.
  - unfold pointerDownEffect_cleanup.
    destruct (sceneRef w) eqn:E; [|contradiction Hsc; reflexivity].
    simpl. rewrite E. discriminate.
  - destruct (applyRemoteColors_pageSame colors w) as (-> & _). exact Hsc.
  - destruct (snapCameraIfFollowingUser_pageSame remote cam w) as (-> & _). exact Hsc.
  - destruct cam; exact Hsc.
  - destruct observer as [[c id]|]; exact Hsc.
  - unfold initialPresentEffect.
    destruct (negb succeeded); [exact Hsc|].
    destruct (negb initiator); [exact Hsc|].
    destruct remote as [state|]; [|exact Hsc].
    destruct (negb (FollowModeType_eqb (type state) local)); [exact Hsc|].
    destruct (hasInitiallyPresentedRef w); exact Hsc.
  - unfold beforeRender.
    destruct (onBeforeRenderObservable (scenes w sc)) as [|[c pos] rest]; [exact Hsc|].
    unfold runBeforeRenderCallback. rewrite applyRemoteCamera_eq. exact Hsc.
  - unfold Camera_setPosition.
    destruct (notifyTimes_pageSame 1 c
                (set_cameras (update (cameras w) c (Camera_set_position p (cameras w c))) w))
      as (-> & _).
    exact Hsc.
  - exact Hsc.
  - exact Hsc.
Qed.

(** X16.  What the page keeps over any number of events: a scene, once
    loaded, stays loaded; the page's invariant (a material is selected only
    in a loaded scene, and no remote camera update is left in progress), once
    true, stays true; and the mark that the page has started presenting on
    its own is never taken back. *)
Theorem page_keeps_over_events :
  forall (w w' : World),
    steps w w' ->
    (sceneRef w <> None -> sceneRef w' <> None)
    /\ (invariant w -> invariant w')
    /\ (hasInitiallyPresentedRef w = true -> hasInitiallyPresentedRef w' = true).
Proof.
  intros w w' Hsteps. induction Hsteps as [w | w1 w2 w3 _ IH Hstep].
  - auto.
  - destruct IH as (Hsc & Hinv & Hp). split; [|split].
    + intros H1. exact (step_scene_loaded w2 w3 Hstep (Hsc H1)).
    + intros H1. exact (step_invariant w2 w3 Hstep (Hinv H1)).
    + intros H1. exact (step_presented w2 w3 Hstep (Hp H1)).
Qed.

Lemma page_keeps_over_events_witness :
  sceneRef demo_selected <> None /\ invariant demo_selected.
Proof.
  destruct (page_keeps_over_events demo_loaded demo_selected
              (steps_step _ _ _ (steps_refl demo_loaded)
                 (step_pointerDown 0 (click 1) demo_loaded)))
    as (Hsc & Hinv & _).
  split.
  - apply Hsc. discriminate.
  - apply Hinv. split; [intros _; discriminate | reflexivity].
Defined.

Lemma steps_presented :
  forall (w w' : World),
    steps w w' ->
    hasInitiallyPresentedRef w = true -> hasInitiallyPresentedRef w' = true.
Proof.
  intros w w' Hsteps. induction Hsteps as [w | w1 w2 w3 _ IH Hstep]; [auto|].
  intros H. exact (step_presented w2 w3 Hstep (IH H)).
Qed.

(** X17.  The page starts presenting on its own at most once.  The effect
    calls startPresenting only when the follow mode is initialised, the local
    user initiated the share, the follow-mode state is local and it has not
    done so before; and once it has, then after any further events every
    later run of the effect, whatever it is given, leaves the page alone. *)
Theorem initial_present_at_most_once :
  forall succeeded initiator remote (w w' : World),
    liveShare (initialPresentEffect succeeded initiator remote w) <> liveShare w ->
    steps (initialPresentEffect succeeded initiator remote w) w' ->
    (succeeded = true /\ initiator = true /\ hasInitiallyPresentedRef w = false
     /\ exists state, remote = Some state /\ type state = local)
    /\ liveShare (initialPresentEffect succeeded initiator remote w)
       = liveShare w ++ [startPresenting]
    /\ forall succeeded' initiator' remote',
         initialPresentEffect succeeded' initiator' remote' w' = w'.
Proof.
  intros succeeded initiator remote w w' Hcalled Hsteps.
  unfold initialPresentEffect in Hcalled, Hsteps |- * at 1.
  destruct succeeded; simpl negb in *; cbv iota in *;
    [|contradiction Hcalled; reflexivity].
  destruct initiator; simpl negb in *; cbv iota in *;
    [|contradiction Hcalled; reflexivity].
  destruct remote as [state|]; [|contradiction Hcalled; reflexivity].
  destruct (FollowModeType_eqb (type state) local) eqn:Hlocal; simpl negb in *;
    cbv iota in *; [|contradiction Hcalled; reflexivity].
  destruct (hasInitiallyPresentedRef w) eqn:Hp; [contradiction Hcalled; reflexivity|].
  split; [|split].
  - repeat split. exists state. split; [reflexivity|].
    destruct (type state); try discriminate; reflexivity.
  - reflexivity.
  - intros succeeded' initiator' remote'.
    assert (Hp' : hasInitiallyPresentedRef w' = true)
      by (apply (steps_presented _ _ Hsteps); reflexivity).
    unfold initialPresentEffect. rewrite Hp'.
    destruct (negb succeeded'); [reflexivity|].
    destruct (negb initiator'); [reflexivity|].
    destruct remote' as [state'|]; [|reflexivity].
    destruct (negb (FollowModeType_eqb (type state') local)); reflexivity.
Qed.

Lemma initial_present_at_most_once_witness :
  liveShare
    (initialPresentEffect true true
       (Some {| type := local; value := {| ICustomFollowData.cameraPosition := None |};
                followingUserId := "me"; isLocalValue := true |})
       demo_loaded)
  = liveShare demo_loaded ++ [startPresenting]
  /\ initialPresentEffect true true
       (Some {| type := local; value := {| ICustomFollowData.cameraPosition := None |};
                followingUserId := "me"; isLocalValue := true |})
       (pointerDown 0 (click 1)
          (initialPresentEffect true true
             (Some {| type := local; value := {| ICustomFollowData.cameraPosition := None |};
                      followingUserId := "me"; isLocalValue := true |})
             demo_loaded))
     = pointerDown 0 (click 1)
         (initialPresentEffect true true
            (Some {| type := local; value := {| ICustomFollowData.cameraPosition := None |};
                     followingUserId := "me"; isLocalValue := true |})
            demo_loaded).
Proof.
  pose (me := {| type := local; value := {| ICustomFollowData.cameraPosition := None |};
                 followingUserId := "me"; isLocalValue := true |}).
  assert (Hcalled : liveShare (initialPresentEffect true true (Some me) demo_loaded)
                    <> liveShare demo_loaded) by discriminate.
  destruct (initial_present_at_most_once true true (Some me) demo_loaded
              (pointerDown 0 (click 1) (initialPresentEffect true true (Some me) demo_loaded))
              Hcalled
              (steps_step _ _ _ (steps_refl _) (step_pointerDown 0 (click 1) _)))
    as (_ & Hlog & Hlater).
  split; [exact Hlog | apply Hlater].
Defined.

(** ** The ready event on the page *)

Lemma snapCameraIfFollowingUser_no_camera :
  forall remote (w : World), snapCameraIfFollowingUser remote None w = w.
Proof.
  intros remote w. unfold snapCameraIfFollowingUser.
  destruct remote as [state|]; [|reflexivity].
  destruct (ICustomFollowData.cameraPosition (value state)); [|reflexivity].
  destruct (isLocalValue state); reflexivity.
Qed.

(** X18.  What the ready callback of the first render does (it is the one
    ModelViewerScene keeps, created while the page's camera was still null).
    It stores the scene and the camera, registers the pointer handler on the
    scene, and applies the shared colours: every entry of the map (with
    distinct keys) that names a PBR material of the new scene has taken
    effect.  It makes no call to the SDK and keeps the selection.  It queues
    no camera update, even if a remote camera position is already known,
    because its snap callback still holds the null camera. *)
Theorem ready_loads_scene :
  forall sel colors remote sc cam (w : World),
    let w' := onReadyObservable sel colors remote None sc cam w in
    sceneRef w' = Some sc
    /\ camera w' = cam
    /\ onPointerDown (scenes w' sc) = Some (handlePointerDown_closure sel)
    /\ (forall s, onBeforeRenderObservable (scenes w' s)
                  = onBeforeRenderObservable (scenes w s))
    /\ cameras w' = cameras w
    /\ liveShare w' = liveShare w
    /\ selectedMaterialName w' = selectedMaterialName w
    /\ (forall k v m,
           NoDup (map fst colors) ->
           In (k, v) colors ->
           getMaterialByName sc k w = Some m ->
           instanceof_PBRMaterial (materialObjects w m) = true ->
           materialObjects w' m = PBRMaterial k (FromHexString v)).
Proof.
  intros sel colors remote sc cam w. cbv zeta.
  unfold onReadyObservable, setCamera.
  rewrite snapCameraIfFollowingUser_no_camera.
  set (w1 := assign_onPointerDown sc (Some (handlePointerDown_closure sel))
               (set_sceneRef (Some sc) w)).
  destruct (applyRemoteColors_engine colors w1) as (Hs & Hc & _ & _).
  destruct (applyRemoteColors_pageSame colors w1) as (Hr & Hsel & _).
  cbn [sceneRef camera scenes cameras liveShare selectedMaterialName materialObjects
       set_camera].
  rewrite Hs, Hc, Hr, Hsel, applyRemoteColors_liveShare.
  repeat match goal with |- _ /\ _ => split end; try reflexivity.
  - unfold w1. cbn [scenes assign_onPointerDown set_scenes]. rewrite update_same.
    reflexivity.
  - intros s. unfold w1. cbn [scenes assign_onPointerDown set_scenes set_sceneRef].
    unfold update. destruct (Nat.eqb s sc) eqn:Heq; [|reflexivity].
    apply Nat.eqb_eq in Heq. subst s. reflexivity.
  - intros k v m Hnodup Hin Hfound Hpbr.
    apply (applyRemoteColors_applies colors w1 sc k v m); try assumption.
    + reflexivity.
    + unfold getMaterialByName, w1.
      cbn [scenes assign_onPointerDown set_scenes set_sceneRef materialObjects].
      rewrite update_same. exact Hfound.
Qed.

Lemma ready_loads_scene_witness :
  materialObjects
    (onReadyObservable None [("body", "#ff0000")] (Some demo_remote) None 0 (Some 0)
       demo_mounted) 0
  = PBRMaterial "body" (FromHexString "#ff0000").
Proof.
  destruct (ready_loads_scene None [("body", "#ff0000")] (Some demo_remote) 0 (Some 0)
              demo_mounted) as (_ & _ & _ & _ & _ & _ & _ & Hcolours).
  apply (Hcolours "body" "#ff0000" 0).
  - repeat constructor. simpl. intuition.
  - left. reflexivity.
  - reflexivity.
  - reflexivity.
Defined.

(** X19.  The ready event reaches the page exactly once per mount, also on
    an element that still carries listeners of other kinds from earlier
    mounts: if the element had no ready listener before the effect ran, the
    first viewerready event invokes onReadyObservable once, with the event's
    scene and that scene's active camera, and a second viewerready event
    changes nothing. *)
Theorem ready_is_delivered_exactly_once :
  forall (onReady : SceneRef -> option CameraRef -> World -> World)
         abortController detail detail' (p : Page) el,
    viewerRef p = Some el ->
    listensTo "viewerready" el = false ->
    let first :=
      dispatchEvent onReady "viewerready" detail
        (ModelViewerScene_effect abortController p) in
    world first
    = onReady (scene detail) (activeCamera (scenes (world p) (scene detail))) (world p)
    /\ dispatchEvent onReady "viewerready" detail' first = first.
Proof.
  intros onReady abortController detail detail' p el Hel Hnone. cbv zeta.
  assert (Hplain : filter (fun l => String.eqb (eventType l) "viewerready") (listeners el)
                   = []).
  { apply filter_none. intros l Hin. exact (listensTo_false _ el l Hnone Hin). }
  assert (Hkept : filter (fun l => negb (String.eqb (eventType l) "viewerready" && once l))
                         (listeners el) = listeners el).
  { apply forallb_filter_id, forallb_forall. intros l Hin.
    rewrite (listensTo_false _ el l Hnone Hin). reflexivity. }
  assert (Hfirst :
            dispatchEvent onReady "viewerready" detail
              (ModelViewerScene_effect abortController p)
            = {| world := onReady (scene detail)
                            (activeCamera (scenes (world p) (scene detail))) (world p);
                 viewerRef := Some {| listeners := listeners el ++ [modelchange_registration] |};
                 effectCamera := activeCamera (scenes (world p) (scene detail)) |}).
  { unfold ModelViewerScene_effect, dispatchEvent. rewrite Hel.
    cbn [viewerRef world effectCamera]. unfold addEventListener. cbn [listeners].
    rewrite <- app_assoc, !filter_app, Hplain, Hkept. reflexivity. }
  rewrite Hfirst. split; [reflexivity|].
  unfold dispatchEvent. cbn [viewerRef listeners world effectCamera].
  rewrite !filter_app, Hplain, Hkept. reflexivity.
Qed.

Lemma ready_is_delivered_exactly_once_witness :
  world (dispatchEvent (onReadyObservable None [] None None) "viewerready" {| scene := 0 |}
           (ModelViewerScene_effect 8
              (fold_left remount [5; 6] (rendered demo_mounted))))
  = onReadyObservable None [] None None 0 (Some 0) demo_mounted.
Proof.
  exact (proj1 (ready_is_delivered_exactly_once (onReadyObservable None [] None None) 8
                  {| scene := 0 |} {| scene := 0 |}
                  (fold_left remount [5; 6] (rendered demo_mounted))
                  {| listeners := [modelchange_registration; modelchange_registration] |}
                  eq_refl eq_refl)).
Defined.
